(** * XPoster: style analyzer, content generator and posting scheduler

    A shallow embedding of [src/style_analyzer/analyzer.py],
    [src/content_generator/generator.py] and [src/scheduler/scheduler.py],
    followed by the properties of the written specification that concern
    them.

    Conventions.
    - A Python [str] is the list of its Unicode code points; [len] is the
      length of that list and slicing is [take]/[drop].
    - A Python [float] is an IEEE 754 binary64 value ([spec_float] with
      precision 53 and maximal exponent 1024).
    - A Python [dict] with string keys is a [gmap]; dictionary equality is
      equality of maps.
    - Logging has no effect on any value and is left out. *)

From Stdlib Require Import ZArith NArith QArith Lia String Ascii DecimalString.
From Stdlib Require Import Floats.SpecFloat.
From stdpp Require Import base option list gmap.

Local Open Scope Z_scope.
Local Open Scope nat_scope.

(** ** Python strings *)

Module Py.

Definition char := N.
Definition str := list N.

(** An ASCII literal of the source as a list of code points. *)
Definition lit (s : string) : str :=
  map N_of_ascii (list_ascii_of_string s).

(** [str.isspace] for one code point: the characters that [str.strip()]
    and [str.split()] treat as whitespace. *)
Definition isspace (c : char) : bool :=
  ((9 <=? c) && (c <=? 13) || (28 <=? c) && (c <=? 32)
   || (c =? 133) || (c =? 160) || (c =? 5760)
   || (8192 <=? c) && (c <=? 8202)
   || (c =? 8232) || (c =? 8233) || (c =? 8239) || (c =? 8287)
   || (c =? 12288))%N.

(** Membership of a code point in the argument of [str.strip(chars)]. *)
Definition in_chars (chars : str) (c : char) : bool :=
  existsb (N.eqb c) chars.

Section Strip.
Variable p : char -> bool.

Fixpoint lstrip_by (s : str) : str :=
  match s with
  | [] => []
  | c :: s' => if p c then lstrip_by s' else s
  end.

Fixpoint rstrip_by (s : str) : str :=
  match s with
  | [] => []
  | c :: s' =>
      match rstrip_by s' with
      | [] => if p c then [] else [c]
      | r => c :: r
      end
  end.

Definition strip_by (s : str) : str := rstrip_by (lstrip_by s).
End Strip.

(** [s.strip()] and [s.strip(chars)]. *)
Definition strip (s : str) : str := strip_by isspace s.
Definition strip_chars (chars s : str) : str := strip_by (in_chars chars) s.

(** [s.startswith(prefix)]. *)
Fixpoint startswith (s prefix : str) : bool :=
  match prefix, s with
  | [], _ => true
  | _ :: _, [] => false
  | a :: prefix', b :: s' => (a =? b)%N && startswith s' prefix'
  end.

(** [sub in s]. *)
Fixpoint contains (s sub : str) : bool :=
  startswith s sub ||
  match s with
  | [] => false
  | _ :: s' => contains s' sub
  end.

(** Truth value of a string: non-empty. *)
Definition truthy (s : str) : bool :=
  match s with [] => false | _ => true end.

(** The maximal runs of characters satisfying [p], left to right: the
    words of [s.split()] for the non-blank characters, and the matches of
    a pattern [\b\w+\b] for the word characters. *)
Fixpoint runs (p : char -> bool) (s : str) : list str :=
  match s with
  | [] => []
  | c :: s' =>
      if p c then
        match s' with
        | c' :: _ =>
            if p c' then
              match runs p s' with
              | w :: ws => (c :: w) :: ws
              | [] => [[c]]
              end
            else [c] :: runs p s'
        | [] => [[c]]
        end
      else runs p s'
  end.

Definition split (s : str) : list str := runs (fun c => negb (isspace c)) s.

(** [re.split] on a pattern [[...]+]: the pieces between the maximal runs
    of separator characters, empty pieces at both ends included. *)
Fixpoint re_split (sep : char -> bool) (s : str) : list str :=
  match s with
  | [] => [[]]
  | c :: s' =>
      let r := re_split sep s' in
      if sep c then
        match s' with
        | c' :: _ => if sep c' then r else [] :: r
        | [] => [] :: r
        end
      else
        match r with
        | piece :: rest => (c :: piece) :: rest
        | [] => [[c]]
        end
  end.

(** [s.count(c)] for a single character. *)
Definition count (c : char) (s : str) : nat :=
  length (filter (fun x => x = c) s).

(** [sep.join(parts)]. *)
Fixpoint join (sep : str) (parts : list str) : str :=
  match parts with
  | [] => []
  | [x] => x
  | x :: rest => x ++ sep ++ join sep rest
  end.

(** *** Exceptions

    What a call raises is recorded by its class only: [Exception] stands
    for any instance of [Exception], which the handlers [except Exception]
    of the source catch, and [BaseException] for one outside that class
    ([KeyboardInterrupt], [SystemExit]), which they let through. *)
Inductive raised := Exception | BaseException.

Inductive outcome (A : Type) :=
| Returned (a : A)
| Raised (e : raised).
Global Arguments Returned {A} a.
Global Arguments Raised {A} e.

(** *** Floats *)

Definition float := spec_float.

(** [float(z)], correctly rounded. *)
Definition float_of_int (z : Z) : float := binary_normalize 53 1024 z 0 false.

Definition float_mul (x y : float) : float := SFmul 53 1024 x y.

(** [a / b] on integers with [b] non-zero. The quotient of the two
    conversions is the correctly rounded quotient whenever both operands
    are below 2^53 in magnitude; every count and length of this program
    is. *)
Definition truediv (a b : Z) : float :=
  SFdiv 53 1024 (float_of_int a) (float_of_int b).

(** [x > y]. *)
Definition float_gt (x y : float) : bool := SFltb y x.
Definition float_lt (x y : float) : bool := SFltb x y.

(** [int(x)]: truncation towards zero; [OverflowError] on an infinity and
    [ValueError] on a NaN. *)
Definition int_of_float (x : float) : outcome Z :=
  match x with
  | S754_zero _ => Returned 0%Z
  | S754_finite s m e =>
      let mag := Z.shiftl (Zpos m) e in
      Returned (if s then Z.opp mag else mag)
  | S754_infinity _ | S754_nan => Raised Exception
  end.

(** The literals [0.0], [0.2], [0.5], [0.8] and [1.2] of the source. *)
Definition f0_0 : float := S754_zero false.
Definition f0_2 : float := S754_finite false 7205759403792794 (-55).
Definition f0_5 : float := S754_finite false 4503599627370496 (-53).
Definition f0_8 : float := S754_finite false 7205759403792794 (-53).
Definition f1_2 : float := S754_finite false 5404319552844595 (-52).

End Py.

Import Py.

(** ** Configuration ([config.py])

    [settings.yaml] restricted to its schema: every setting read by the
    generator and the scheduler is absent, or null, ([None]) or holds a value
    of the type the code uses it at. A probability is the rational number
    its YAML integer or float denotes. *)

Record config := {
  posting_enabled : option bool;
  posting_max_posts_per_day : option Z;
  posting_hours_start : option Z;
  posting_hours_end : option Z;
  replies_enabled : option bool;
  replies_check_interval_minutes : option Z;
  replies_reply_probability : option Q;
  replies_keywords_to_monitor : option (list str);
  replies_max_replies_per_check : option Z;
}.

(** [Config.get(key, default)]: the default when the key is absent or
    null. *)
Definition config_get {A} (setting : option A) (default : A) : A :=
  match setting with
  | Some v => v
  | None => default
  end.

(** The settings file of a fresh checkout: nothing configured. *)
Definition no_settings : config :=
  {| posting_enabled := None; posting_max_posts_per_day := None;
     posting_hours_start := None; posting_hours_end := None;
     replies_enabled := None; replies_check_interval_minutes := None;
     replies_reply_probability := None;
     replies_keywords_to_monitor := None;
     replies_max_replies_per_check := None |}.

(** ** Tweets as the platform client returns them

    The dictionaries built by [get_mentions] and [get_home_timeline]. The
    client always sets ["id"]; a key that code reads with [dict.get] is
    optional here. An id is an integer ([get_mentions]) or a string
    ([get_home_timeline]). *)

Inductive tweet_id :=
| IdInt (n : Z)
| IdStr (s : str).

Global Instance tweet_id_eq_dec : EqDecision tweet_id.
Proof. solve_decision. Defined.

Record tweet := {
  tw_id : tweet_id;
  tw_text : option str;
  tw_author_id : option tweet_id;
  tw_author_screen_name : option str;
}.

(** [tweet["text"]]: [KeyError] when the key is absent. *)
Definition subscript {A} (field : option A) : outcome A :=
  match field with
  | Some v => Returned v
  | None => Raised Exception
  end.

(** [tweet.get("text", default)]. *)
Definition dict_get {A} (field : option A) (default : A) : A :=
  match field with
  | Some v => v
  | None => default
  end.

(** ** Content generator ([generator.py]) *)

(** The rational number that the float literal [0.3] denotes. *)
Definition q0_3 : Q := (5404319552844595 # 18014398509481984)%Q.

Section ContentGenerator.

(** [str.lower]: the Unicode lower-casing of the Python runtime. *)
Variable lower : str -> str.

Definition quote_chars : str := [34%N; 39%N].

Definition prefixes : list str :=
  [lit "tweet:"; lit "reply:"; lit "response:";
   lit "here's the tweet:"; lit "here is the tweet:"].

(** One turn of the loop over [prefixes]. *)
Definition strip_prefix (text prefix : str) : str :=
  if startswith (lower text) prefix
  then strip (drop (length prefix) text)
  else text.

Definition _clean_tweet (text : str) : str :=
  let text := strip_chars quote_chars (strip text) in
  let text := fold_left strip_prefix prefixes text in
  let text :=
    if 280 <? length text then take 277 text ++ lit "..." else text in
  strip text.

(** [should_reply_to_tweet], with [random] the value that
    [random.random()] returns: a float in [0, 1), as the rational number it
    denotes. *)
Definition should_reply_to_tweet (cfg : config) (random : Q) (tw : tweet)
  : bool :=
  let reply_probability :=
    config_get (replies_reply_probability cfg) q0_3 in
  if negb (Qle_bool random reply_probability) then false
  else
    let keywords := config_get (replies_keywords_to_monitor cfg) [] in
    match keywords with
    | [] => true
    | _ :: _ =>
        let tweet_text := lower (dict_get (tw_text tw) []) in
        existsb (fun keyword => contains tweet_text (lower keyword)) keywords
    end.

End ContentGenerator.

(** [str.lower] on text whose letters are all ASCII; other code points are
    left as they are. Used to evaluate the generator on ASCII inputs. *)
Definition ascii_lower (s : str) : str :=
  map (fun c => if (65 <=? c)%N && (c <=? 90)%N then (c + 32)%N else c) s.

(** ** Style analyzer ([analyzer.py]) *)

(** Values of the style profile: what [json.loads] produces, which is also
    what the analyzer itself stores. *)
#[warnings="-register-all"]
Inductive value :=
| VNone
| VBool (b : bool)
| VInt (z : Z)
| VFloat (f : float)
| VStr (s : str)
| VList (l : list value)
| VDict (d : gmap str value).

(** [not v]. *)
Definition falsy (v : value) : bool :=
  match v with
  | VNone => true
  | VBool b => negb b
  | VInt z => (z =? 0)%Z
  | VFloat f => SFeqb f f0_0
  | VStr s => negb (truthy s)
  | VList l => match l with [] => true | _ => false end
  | VDict d => bool_decide (d = ∅)
  end.

(** [v > c] for a float literal [c]; [false] also stands for the
    [TypeError] of a value that is not a number, which no caller below can
    pass. *)
Definition value_gt (v : value) (c : float) : bool :=
  match v with
  | VFloat f => float_gt f c
  | VInt z => float_gt (float_of_int z) c
  | _ => false
  end.

Section StyleAnalyzer.

(** [str.isalnum] for one code point, from the Unicode tables of the
    Python runtime: with the underscore it makes the class [\w]. *)
Variable isalnum : char -> bool.

(** [json.loads]; [None] is [JSONDecodeError]. *)
Variable json_loads : str -> option value.

(** [self.ai_client.analyze(prompt)]: the answer of the language model, or
    the exception the client raises. *)
Variable analyze : str -> outcome str.

Definition is_word (c : char) : bool := isalnum c || (c =? 95)%N.

Definition is_emoji (c : char) : bool :=
  ((128512 <=? c) && (c <=? 128591)
   || (127744 <=? c) && (c <=? 128511)
   || (128640 <=? c) && (c <=? 128767))%N.

Definition is_sentence_end (c : char) : bool :=
  ((c =? 46) || (c =? 33) || (c =? 63))%N.

(** [len(re.findall(r'#\w+', text))]. [in_tag] holds while the characters
    read belong to the match that is being consumed. *)
Fixpoint count_hashtags (in_tag : bool) (text : str) : nat :=
  match text with
  | [] => 0
  | c :: text' =>
      if in_tag && is_word c then count_hashtags true text'
      else if (c =? 35)%N then
        match text' with
        | c' :: _ =>
            if is_word c' then S (count_hashtags true text')
            else count_hashtags false text'
        | [] => 0
        end
      else count_hashtags false text'
  end.

Definition sum_lengths {A} (ls : list (list A)) : nat :=
  foldr (fun l acc => length l + acc) 0 ls.

Definition _calculate_avg_sentence_length (text : str) : float :=
  let sentences := re_split is_sentence_end text in
  let sentences :=
    map strip (filter (fun s => truthy (strip s) = true) sentences) in
  match sentences with
  | [] => f0_0
  | _ :: _ =>
      let total_words :=
        foldr (fun s acc => length (split s) + acc) 0 sentences in
      truediv (Z.of_nat total_words) (Z.of_nat (length sentences))
  end.

Definition _calculate_avg_word_length (text : str) : float :=
  let words := runs is_word text in
  match words with
  | [] => f0_0
  | _ :: _ =>
      let total_chars := sum_lengths words in
      truediv (Z.of_nat total_chars) (Z.of_nat (length words))
  end.

(** [count / len(samples) if samples else 0]. *)
Definition per_sample (count : nat) (samples : list str) : value :=
  match samples with
  | [] => VInt 0
  | _ :: _ => VFloat (truediv (Z.of_nat count) (Z.of_nat (length samples)))
  end.

Definition _quantitative_analysis (samples : list str) : gmap str value :=
  let total_text := join (lit " ") samples in
  let avg_sentence_length := _calculate_avg_sentence_length total_text in
  let avg_word_length := _calculate_avg_word_length total_text in
  let emoji_count := length (filter (fun c => is_emoji c = true) total_text) in
  let hashtag_count := count_hashtags false total_text in
  let exclamation_count := count 33%N total_text in
  let question_count := count 63%N total_text in
  list_to_map
    [(lit "avg_sentence_length", VFloat avg_sentence_length);
     (lit "avg_word_length", VFloat avg_word_length);
     (lit "emoji_frequency", per_sample emoji_count samples);
     (lit "hashtag_frequency", per_sample hashtag_count samples);
     (lit "exclamation_frequency", per_sample exclamation_count samples);
     (lit "question_frequency", per_sample question_count samples)].

(** The pattern of [_extract_json]: an opening brace, characters other
    than braces, any number of brace pairs that enclose no brace and are
    followed by characters other than braces, and a closing brace. The
    classes are disjoint, so the match from a given opening brace is
    unique. [match_object] reads the text after the opening brace and
    yields the rest of the match, closing brace included; [inner] holds
    inside a nested pair. *)
Fixpoint match_object (inner : bool) (text : str) : option str :=
  match text with
  | [] => None
  | c :: text' =>
      if (c =? 123)%N then
        if inner then None else cons c <$> match_object true text'
      else if (c =? 125)%N then
        if inner then cons c <$> match_object false text' else Some [c]
      else cons c <$> match_object inner text'
  end.

Fixpoint search_object (text : str) : option str :=
  match text with
  | [] => None
  | c :: text' =>
      match (if (c =? 123)%N then match_object false text' else None) with
      | Some m => Some (c :: m)
      | None => search_object text'
      end
  end.

(** [_extract_json]; [VNone] is Python's [None]. *)
Definition _extract_json (text : str) : value :=
  let whole := dict_get (json_loads text) VNone in
  match search_object text with
  | Some json_match => dict_get (json_loads json_match) whole
  | None => whole
  end.

Definition nl : str := [10%N].
Definition quoted (s : string) : str := [34%N] ++ lit s ++ [34%N].
Definition field_line (key description : string) : str :=
  lit "    " ++ quoted key ++ lit ": " ++ quoted description.
Definition list_line (key item1 item2 : string) : str :=
  lit "    " ++ quoted key ++ lit ": [" ++ quoted item1 ++ lit ", "
    ++ quoted item2 ++ lit "]".

(** The f-string of [analyze_samples]. *)
Definition analysis_prompt (combined_text : str) : str :=
  join nl
    [lit "Analyze the following writing samples and extract detailed style characteristics. Focus on:";
     [];
     lit "1. Tone and voice (formal, casual, humorous, serious, etc.)";
     lit "2. Vocabulary level and word choice patterns";
     lit "3. Sentence structure (short/long sentences, complexity)";
     lit "4. Punctuation style";
     lit "5. Use of emojis, if any";
     lit "6. Use of hashtags and their style";
     lit "7. Common phrases or expressions";
     lit "8. Writing rhythm and flow";
     lit "9. Topic preferences";
     lit "10. Personality traits evident in writing";
     [];
     lit "Writing samples:";
     take (Z.to_nat 8000) combined_text;
     [];
     lit "Provide a detailed JSON analysis with the following structure:";
     lit "{";
     field_line "tone" "description of overall tone" ++ lit ",";
     field_line "voice" "description of voice characteristics" ++ lit ",";
     field_line "vocabulary_level" "simple/moderate/advanced" ++ lit ",";
     field_line "sentence_style" "description of sentence patterns" ++ lit ",";
     list_line "punctuation_patterns" "pattern1" "pattern2" ++ lit ",";
     field_line "emoji_usage" "none/rare/moderate/frequent" ++ lit ",";
     field_line "hashtag_style" "description or none" ++ lit ",";
     list_line "common_phrases" "phrase1" "phrase2" ++ lit ",";
     list_line "personality_traits" "trait1" "trait2" ++ lit ",";
     list_line "topics_of_interest" "topic1" "topic2" ++ lit ",";
     list_line "writing_quirks" "quirk1" "quirk2";
     lit "}"].

(** [quantitative[key]]; the keys read below are always present. *)
Definition item (d : gmap str value) (key : str) : value :=
  dict_get (d !! key) VNone.

Definition _create_default_profile (samples : list str) : gmap str value :=
  let quantitative := _quantitative_analysis samples in
  quantitative ∪
  list_to_map
    [(lit "tone", VStr (lit "neutral"));
     (lit "voice", VStr (lit "conversational"));
     (lit "vocabulary_level", VStr (lit "moderate"));
     (lit "sentence_style", VStr (lit "varied"));
     (lit "punctuation_patterns", VList [VStr (lit "standard")]);
     (lit "emoji_usage",
       VStr (if value_gt (item quantitative (lit "emoji_frequency")) f0_5
             then lit "moderate" else lit "rare"));
     (lit "hashtag_style",
       VStr (if value_gt (item quantitative (lit "hashtag_frequency")) f0_2
             then lit "occasional" else lit "none"));
     (lit "common_phrases", VList []);
     (lit "personality_traits", VList [VStr (lit "informative")]);
     (lit "topics_of_interest", VList []);
     (lit "writing_quirks", VList [])].

(** The analyzer object: its field [style_profile]. *)
Record analyzer := { style_profile : option (gmap str value) }.

(** What one call of [analyze_samples] leaves behind: the value returned
    or the exception let through, the analyzer afterwards, and the prompts
    sent to the language model, in order. *)
Record analysis := {
  result : outcome (gmap str value);
  after : analyzer;
  llm_calls : list str;
}.

Definition analyze_samples (self : analyzer) (samples : list str)
  : analysis :=
  match samples with
  | [] => {| result := Returned ∅; after := self; llm_calls := [] |}
  | _ :: _ =>
      let combined_text :=
        join (nl ++ nl ++ lit "---" ++ nl ++ nl) (take 10 samples) in
      let prompt := analysis_prompt combined_text in
      match analyze prompt with
      | Returned response =>
          let extracted := _extract_json response in
          if falsy extracted then
            {| result := Returned (_create_default_profile samples);
               after := self; llm_calls := [prompt] |}
          else
            match extracted with
            | VDict d =>
                let profile := _quantitative_analysis samples ∪ d in
                {| result := Returned profile;
                   after := {| style_profile := Some profile |};
                   llm_calls := [prompt] |}
            | _ =>
                (* no [update] on this value: [AttributeError], caught *)
                {| result := Returned (_create_default_profile samples);
                   after := self; llm_calls := [prompt] |}
            end
      | Raised Exception =>
          {| result := Returned (_create_default_profile samples);
             after := self; llm_calls := [prompt] |}
      | Raised BaseException =>
          {| result := Raised BaseException;
             after := self; llm_calls := [prompt] |}
      end
  end.

End StyleAnalyzer.

(** [str.isalnum] on ASCII text. Used to evaluate the analyzer on ASCII
    samples. *)
Definition ascii_isalnum (c : char) : bool :=
  ((48 <=? c) && (c <=? 57) || (65 <=? c) && (c <=? 90)
   || (97 <=? c) && (c <=? 122))%N.

(** ** Posting scheduler ([scheduler.py]) *)

(** *** Time of day ([datetime.time]) *)

Record time := {
  hour : Z;
  minute : Z;
  second : Z;
  microsecond : Z;
}.

(** [time(hour, minute)]: [ValueError] outside 0..23 and 0..59. *)
Definition make_time (h m : Z) : outcome time :=
  if ((0 <=? h) && (h <=? 23) && (0 <=? m) && (m <=? 59))%Z
  then Returned {| hour := h; minute := m; second := 0; microsecond := 0 |}
  else Raised Exception.

Definition lex (c1 c2 : comparison) : comparison :=
  match c1 with
  | Eq => c2
  | _ => c1
  end.

(** Times compare as the tuples (hour, minute, second, microsecond). *)
Definition time_compare (a b : time) : comparison :=
  lex (hour a ?= hour b)%Z
    (lex (minute a ?= minute b)%Z
       (lex (second a ?= second b)%Z (microsecond a ?= microsecond b)%Z)).

Definition time_le (a b : time) : bool :=
  match time_compare a b with
  | Gt => false
  | _ => true
  end.

Definition time_lt (a b : time) : bool :=
  match time_compare a b with
  | Lt => true
  | _ => false
  end.

(** *** State, collaborators and the log of their calls *)

Inductive trigger :=
| IntervalTrigger (minutes : Z)
| CronTrigger (at_hour at_minute : Z).

(** The fields of [PostingScheduler] that its jobs read and write; [jobs]
    is the job store of the background scheduler, by job id. *)
Record scheduler := {
  posts_today : Z;
  last_mention_id : option tweet_id;
  jobs : gmap str trigger;
}.

(** What [post_tweet] and [reply_to_tweet] return on success. *)
Record posted := {
  posted_id : tweet_id;
  posted_text : str;
}.

(** A call that leaves the scheduler: to the content generator (behind
    which the language model sits), to the platform client, or to the
    random number generator. *)
Inductive call :=
| GenerateTweetIdeas (count : Z)
| GenerateTweet (topic : option str)
| GenerateReply (original_tweet : str) (original_author : option str)
| PostTweet (text : str)
| ReplyToTweet (id : tweet_id) (text : str)
| GetMentions (since_id : option tweet_id) (max_results : Z)
| GetHomeTimeline (max_results : Z)
| RandomChoice (seq : list str)
| RandomRandom
| RandomRandint (a b : Z).

(** A logged call, with the scheduler as it was when the call was made. *)
Record entry := {
  at_state : scheduler;
  made : call;
}.

(** The surroundings of one firing. Every answer may depend on all the calls
    made before it. A collaborator returns or raises; the random number
    generator supplies an index into the sequence for [random.choice], a
    float in [0, 1) for [random.random] and an offset into the range for
    [random.randint]. *)
Record world := {
  now : time;
  user_id : option tweet_id;
  generate_tweet_ideas : list entry -> Z -> outcome (list str);
  generate_tweet : list entry -> option str -> outcome str;
  generate_reply : list entry -> str -> option str -> outcome str;
  post_tweet : list entry -> str -> outcome (option posted);
  reply_to_tweet : list entry -> tweet_id -> str -> outcome (option posted);
  get_mentions : list entry -> option tweet_id -> Z -> outcome (list tweet);
  get_home_timeline : list entry -> Z -> outcome (list tweet);
  choice_index : list entry -> nat;
  random_draw : list entry -> Q;
  randint_offset : list entry -> Z;
}.

(** *** The monad of a job: state, log and exceptions *)

Record run := {
  sched : scheduler;
  log : list entry;
}.

Definition M (A : Type) : Type := run -> outcome A * run.

Definition ret {A} (a : A) : M A := fun r => (Returned a, r).

Definition bind {A B} (m : M A) (k : A -> M B) : M B :=
  fun r =>
    match m r with
    | (Returned a, r') => k a r'
    | (Raised e, r') => (Raised e, r')
    end.

Notation "'let*' x ':=' m 'in' k" := (bind m (fun x => k))
  (at level 10, x name, m at level 100, k at level 200).

(** The value or the exception of a computation without effects. *)
Definition lift {A} (o : outcome A) : M A := fun r => (o, r).

(** [try: m except Exception: pass], after logging. *)
Definition try_except (m : M unit) : M unit :=
  fun r =>
    match m r with
    | (Raised Exception, r') => (Returned tt, r')
    | other => other
    end.

Definition read {A} (field : scheduler -> A) : M A :=
  fun r => (Returned (field (sched r)), r).

Definition write (update : scheduler -> scheduler) : M unit :=
  fun r => (Returned tt, {| sched := update (sched r); log := log r |}).

(** A call to the outside: logged, then answered from the log so far. *)
Definition perform {A} (c : call) (answer : list entry -> outcome A) : M A :=
  fun r =>
    (answer (log r),
     {| sched := sched r;
        log := log r ++ [{| at_state := sched r; made := c |}] |}).

(** [for x in xs: body(x)]. *)
Fixpoint for_each {A} (xs : list A) (body : A -> M unit) : M unit :=
  match xs with
  | [] => ret tt
  | x :: xs' => let* _ := body x in for_each xs' body
  end.

Definition set_posts_today (n : Z) (s : scheduler) : scheduler :=
  {| posts_today := n; last_mention_id := last_mention_id s; jobs := jobs s |}.

Definition set_last_mention_id (i : tweet_id) (s : scheduler) : scheduler :=
  {| posts_today := posts_today s; last_mention_id := Some i; jobs := jobs s |}.

(** [self.scheduler.add_job(..., id=id, replace_existing=True)]. *)
Definition add_job (id : str) (t : trigger) (s : scheduler) : scheduler :=
  {| posts_today := posts_today s; last_mention_id := last_mention_id s;
     jobs := <[id := t]> (jobs s) |}.

(** *** The jobs *)

Section PostingScheduler.

Variable lower : str -> str.
Variable cfg : config.
Variable w : world.

(** [random.choice(seq)] on a non-empty sequence. *)
Definition random_choice (seq : list str) : M str :=
  perform (RandomChoice seq)
    (fun h => Returned (nth (choice_index w h mod length seq) seq [])).

(** [random.randint(a, b)]: an integer of the range, both ends included;
    [ValueError] when the range is empty. *)
Definition random_randint (a b : Z) : M Z :=
  perform (RandomRandint a b)
    (fun h =>
       if (a <=? b)%Z
       then Returned (a + randint_offset w h mod (b - a + 1))%Z
       else Raised Exception).

(** [(active_hours * 60) // max_posts]: [ZeroDivisionError] on zero. *)
Definition interval_minutes (active_hours max_posts : Z) : outcome Z :=
  if (max_posts =? 0)%Z then Raised Exception
  else Returned (active_hours * 60 / max_posts)%Z.

(** [int(interval_minutes * factor)]. *)
Definition scaled (interval : Z) (factor : float) : outcome Z :=
  int_of_float (float_mul (float_of_int interval) factor).

Definition _schedule_posting : M unit :=
  let max_posts := config_get (posting_max_posts_per_day cfg) 10%Z in
  let start_hour := config_get (posting_hours_start cfg) 9%Z in
  let end_hour := config_get (posting_hours_end cfg) 21%Z in
  let active_hours := (end_hour - start_hour)%Z in
  if (active_hours <=? 0)%Z then ret tt
  else
    let* interval := lift (interval_minutes active_hours max_posts) in
    let* min_interval := lift (scaled interval f0_8) in
    let* max_interval := lift (scaled interval f1_2) in
    let* minutes := random_randint min_interval max_interval in
    let* _ := write (add_job (lit "post_tweet") (IntervalTrigger minutes)) in
    write (add_job (lit "reset_counter") (CronTrigger 0 0)).

Definition _schedule_reply_monitoring : M unit :=
  let check_interval :=
    config_get (replies_check_interval_minutes cfg) 30%Z in
  write (add_job (lit "monitor_replies") (IntervalTrigger check_interval)).

Definition _post_tweet_job : M unit :=
  try_except
    (let now := now w in
     let* start_time :=
       lift (make_time (config_get (posting_hours_start cfg) 9%Z) 0) in
     let* end_time :=
       lift (make_time (config_get (posting_hours_end cfg) 21%Z) 0) in
     if negb (time_le start_time now && time_le now end_time) then ret tt
     else
       let max_posts := config_get (posting_max_posts_per_day cfg) 10%Z in
       let* posts := read posts_today in
       if (max_posts <=? posts)%Z then ret tt
       else
         let* ideas :=
           perform (GenerateTweetIdeas 3)
             (fun h => generate_tweet_ideas w h 3%Z) in
         let* topic :=
           match ideas with
           | [] => ret None
           | _ :: _ => let* idea := random_choice ideas in ret (Some idea)
           end in
         let* tweet_text :=
           perform (GenerateTweet topic) (fun h => generate_tweet w h topic) in
         if truthy tweet_text then
           let* result :=
             perform (PostTweet tweet_text)
               (fun h => post_tweet w h tweet_text) in
           match result with
           | Some _ =>
               let* posts := read posts_today in
               write (set_posts_today (posts + 1)%Z)
           | None => ret tt
           end
         else ret tt).

Definition _reply_to_mention (mention : tweet) : M unit :=
  try_except
    (let* original := lift (subscript (tw_text mention)) in
     let* reply_text :=
       perform (GenerateReply original None)
         (fun h => generate_reply w h original None) in
     if truthy reply_text then
       let* _ :=
         perform (ReplyToTweet (tw_id mention) reply_text)
           (fun h => reply_to_tweet w h (tw_id mention) reply_text) in
       ret tt
     else ret tt).

(** The loop of [_monitor_timeline], with its counter [replies_sent]. *)
Fixpoint timeline_loop (max_replies : Z) (tweets : list tweet)
    (replies_sent : Z) : M unit :=
  match tweets with
  | [] => ret tt
  | tw :: rest =>
      if (max_replies <=? replies_sent)%Z then ret tt
      else if bool_decide (tw_author_id tw = user_id w)
      then timeline_loop max_replies rest replies_sent
      else
        let* random := perform RandomRandom (fun h => Returned (random_draw w h)) in
        if should_reply_to_tweet lower cfg random tw then
          let* original := lift (subscript (tw_text tw)) in
          let* reply_text :=
            perform (GenerateReply original (tw_author_screen_name tw))
              (fun h =>
                 generate_reply w h original (tw_author_screen_name tw)) in
          if truthy reply_text then
            let* result :=
              perform (ReplyToTweet (tw_id tw) reply_text)
                (fun h => reply_to_tweet w h (tw_id tw) reply_text) in
            match result with
            | Some _ => timeline_loop max_replies rest (replies_sent + 1)%Z
            | None => timeline_loop max_replies rest replies_sent
            end
          else timeline_loop max_replies rest replies_sent
        else timeline_loop max_replies rest replies_sent
  end.

Definition _monitor_timeline : M unit :=
  try_except
    (let max_replies :=
       config_get (replies_max_replies_per_check cfg) 5%Z in
     let* tweets :=
       perform (GetHomeTimeline 20) (fun h => get_home_timeline w h 20%Z) in
     timeline_loop max_replies tweets 0%Z).

Definition _monitor_and_reply_job : M unit :=
  try_except
    (let* since_id := read last_mention_id in
     let* mentions :=
       perform (GetMentions since_id 10)
         (fun h => get_mentions w h since_id 10%Z) in
     let* _ :=
       match mentions with
       | [] => ret tt
       | newest :: _ =>
           let* _ := write (set_last_mention_id (tw_id newest)) in
           for_each mentions _reply_to_mention
       end in
     _monitor_timeline).

Definition _reset_daily_counter : M unit :=
  write (set_posts_today 0%Z).

End PostingScheduler.

(** The half-open posting window of the written specification: the hour of
    the current time lies in [start_hour, end_hour). *)
Definition in_posting_window_spec (start_hour end_hour : Z) (t : time) : bool :=
  ((start_hour <=? hour t) && (hour t <? end_hour))%Z.

(** The time [h]:00:00. *)
Definition on_the_hour (h : Z) : time :=
  {| hour := h; minute := 0; second := 0; microsecond := 0 |}.

(** ** The style prompt ([analyzer.py], [get_style_prompt]) *)

(** A computation without effects that returns or raises. *)
Definition outcome_bind {A B} (o : outcome A) (k : A -> outcome B)
  : outcome B :=
  match o with
  | Returned a => k a
  | Raised e => Raised e
  end.

Notation "'let!' x ':=' o 'in' k" := (outcome_bind o (fun x => k))
  (at level 10, x name, o at level 100, k at level 200).

(** [v < z] and [v > z] for an integer literal [z], and [v > c] for a float
    literal [c]: [TypeError] unless [v] is a number. Python compares an
    integer with a float by value; the literals here are such that the
    comparison of the conversions gives the same answer. *)
Definition lt_int (v : value) (z : Z) : outcome bool :=
  match v with
  | VFloat f => Returned (float_lt f (float_of_int z))
  | VInt a => Returned (a <? z)%Z
  | VBool b => Returned ((if b then 1 else 0) <? z)%Z
  | _ => Raised Exception
  end.

Definition gt_int (v : value) (z : Z) : outcome bool :=
  match v with
  | VFloat f => Returned (float_gt f (float_of_int z))
  | VInt a => Returned (z <? a)%Z
  | VBool b => Returned (z <? (if b then 1 else 0))%Z
  | _ => Raised Exception
  end.

Definition gt_float (v : value) (c : float) : outcome bool :=
  match v with
  | VFloat f => Returned (float_gt f c)
  | VInt a => Returned (float_gt (float_of_int a) c)
  | VBool b => Returned (float_gt (float_of_int (if b then 1 else 0)) c)
  | _ => Raised Exception
  end.

(** The strings of a list whose items are all strings. *)
Fixpoint all_strs (l : list value) : option (list str) :=
  match l with
  | [] => Some []
  | VStr s :: l' => cons s <$> all_strs l'
  | _ :: _ => None
  end.

(** [v[:n]]: a list or a string can be sliced, anything else raises. *)
Definition slice_value (n : nat) (v : value) : outcome value :=
  match v with
  | VList l => Returned (VList (take n l))
  | VStr s => Returned (VStr (take n s))
  | _ => Raised Exception
  end.

Definition fallback_style_prompt : str :=
  lit "Write in a natural, conversational style.".

Section StylePrompt.

(** [str(v)] for a value that is not a string, as an f-string formats
    it. *)
Variable py_str : value -> str.

(** The keys of a dictionary in the order in which iteration yields them,
    which the map does not record. *)
Variable dict_keys : gmap str value -> list str.

(** [f"{v}"]. *)
Definition format (v : value) : str :=
  match v with
  | VStr s => s
  | _ => py_str v
  end.

(** [sep.join(v)]: [v] is iterated over; [TypeError] when it cannot be, or
    when an item is not a string. *)
Definition join_value (sep : str) (v : value) : outcome str :=
  match v with
  | VList l =>
      match all_strs l with
      | Some ss => Returned (join sep ss)
      | None => Raised Exception
      end
  | VStr s => Returned (join sep (map (fun c => [c]) s))
  | VDict d => Returned (join sep (dict_keys d))
  | _ => Raised Exception
  end.

(** One optional clause of the prompt: when the entry at [key] is true, the
    first [n] items of it (all of them without [n]), joined by commas. *)
Definition listed_clause (profile : gmap str value) (key : str)
    (n : option nat) (label : str) : outcome (list str) :=
  let entry := dict_get (profile !! key) VNone in
  if falsy entry then Returned []
  else
    let! items :=
      match n with
      | Some n => slice_value n entry
      | None => Returned entry
      end in
    let! joined := join_value (lit ", ") items in
    Returned [label ++ joined].

Definition get_style_prompt (self : analyzer) : outcome str :=
  match style_profile self with
  | None => Returned fallback_style_prompt
  | Some profile =>
      if bool_decide (profile = ∅) then Returned fallback_style_prompt
      else
        let get key default := dict_get (profile !! key) default in
        let prompt_parts :=
          [lit "Tone: " ++ format (get (lit "tone") (VStr (lit "neutral")));
           lit "Voice: "
             ++ format (get (lit "voice") (VStr (lit "conversational")));
           lit "Vocabulary: "
             ++ format (get (lit "vocabulary_level") (VStr (lit "moderate")))]
        in
        let! traits :=
          listed_clause profile (lit "personality_traits") None
            (lit "Personality: ") in
        let! phrases :=
          listed_clause profile (lit "common_phrases") (Some 3)
            (lit "Common phrases: ") in
        let avg_sent_len := get (lit "avg_sentence_length") (VInt 15) in
        let! short := lt_int avg_sent_len 10 in
        let! length_clause :=
          if short then Returned [lit "Use short, punchy sentences"]
          else
            let! long := gt_int avg_sent_len 20 in
            Returned
              (if long then [lit "Use longer, more detailed sentences"]
               else []) in
        let! emojis := gt_float (get (lit "emoji_frequency") (VInt 0)) f0_5 in
        let! hashtags :=
          gt_float (get (lit "hashtag_frequency") (VInt 0)) f0_2 in
        Returned
          (join (lit ". ")
             (prompt_parts ++ traits ++ phrases ++ length_clause
                ++ (if emojis then [lit "Include emojis occasionally"] else [])
                ++ (if hashtags then [lit "Use relevant hashtags"] else []))
             ++ lit ".")
  end.

End StylePrompt.

(** ** Generation of tweets, replies and ideas ([generator.py]) *)

(** The settings [content_generation.*], each absent or of the type the
    code uses it at. *)
Record generation_settings := {
  include_hashtags : option bool;
  max_hashtags : option Z;
  include_emojis : option bool;
  temperature : option float;
}.

(** One request to [ai_client.generate]. *)
Record llm_request := {
  req_prompt : str;
  req_temperature : float;
  req_max_tokens : Z;
}.

(** What a generating function leaves behind: the value returned or the
    exception let through, and the requests sent to the language model. *)
Record generation (A : Type) := {
  gen_result : outcome A;
  gen_requests : list llm_request;
}.
Arguments gen_result {A} _.
Arguments gen_requests {A} _.

(** The literal [0.9]. *)
Definition f0_9 : float := S754_finite false 8106479329266893 (-53).

(** [str(z)] for an integer. *)
Definition str_of_int (z : Z) : str := lit (NilZero.string_of_int (Z.to_int z)).

(** [s.split(sep)] for a separator of one character. *)
Fixpoint split_on (sep : char) (s : str) : list str :=
  match s with
  | [] => [[]]
  | c :: s' =>
      if (c =? sep)%N then [] :: split_on sep s'
      else
        match split_on sep s' with
        | piece :: rest => (c :: piece) :: rest
        | [] => [[c]]
        end
  end.

(** [l[:count]]: a negative [count] counts from the end. *)
Definition slice_to {A} (count : Z) (l : list A) : list A :=
  if (0 <=? count)%Z then take (Z.to_nat count) l
  else take (length l - Z.to_nat (- count)) l.

(** Truth value of an optional string argument: given and non-empty. *)
Definition given (o : option str) : bool :=
  match o with
  | Some s => truthy s
  | None => false
  end.

Definition tweet_fallbacks : list str :=
  [lit "Thinking about innovation and the future of technology.";
   lit "Excited about what's next!";
   lit "Just sharing some thoughts today.";
   lit "Interesting times we're living in.";
   lit "Always learning, always growing."].

Definition reply_fallbacks : list str :=
  [lit "Interesting perspective!";
   lit "Thanks for sharing this!";
   lit "Great point!";
   lit "This is thought-provoking.";
   lit "Appreciate the insights!"].

Definition idea_markers : str := lit "0123456789.-* ".

Module Generator.

Section Generation.

Variable lower : str -> str.

(** [str.isdigit] for one code point, from the Unicode tables. *)
Variable isdigit : char -> bool.

Variable py_str : value -> str.
Variable dict_keys : gmap str value -> list str.

(** [self.config], [self.style_analyzer] and [self.ai_client.generate]. *)
Variable settings : generation_settings.
Variable style_analyzer : analyzer.
Variable generate : str -> float -> Z -> outcome str.

(** The index that [random.choice] draws in a fallback pool. *)
Variable choice : nat.

Definition _fallback_tweet : str := nth (choice mod 5) tweet_fallbacks [].
Definition _fallback_reply : str := nth (choice mod 5) reply_fallbacks [].

(** The [try] block shared by [generate_tweet] and [generate_reply]: one
    request, the answer cleaned, the fallback on [Exception]. *)
Definition request_text (prompt : str) (fallback : str) : generation str :=
  let temperature := config_get (temperature settings) f0_8 in
  let request :=
    {| req_prompt := prompt; req_temperature := temperature;
       req_max_tokens := 100 |} in
  match generate prompt temperature 100%Z with
  | Returned text =>
      {| gen_result := Returned (_clean_tweet lower text);
         gen_requests := [request] |}
  | Raised Exception =>
      {| gen_result := Returned fallback; gen_requests := [request] |}
  | Raised BaseException =>
      {| gen_result := Raised BaseException; gen_requests := [request] |}
  end.

(** The hint about emojis of [generate_tweet]. *)
Definition emoji_hint : outcome (list str) :=
  if config_get (include_emojis settings) false then
    match style_profile style_analyzer with
    | None => Returned []
    | Some profile =>
        if bool_decide (profile = ∅) then Returned []
        else
          let! frequent :=
            gt_float (dict_get (profile !! lit "emoji_frequency") (VInt 0))
              f0_5 in
          Returned
            (if frequent
             then [nl ++ lit "Include emojis where they feel natural."]
             else [])
    end
  else Returned [].

Definition tweet_prompt (topic context : option str) : outcome str :=
  let! style_prompt := get_style_prompt py_str dict_keys style_analyzer in
  let! emojis := emoji_hint in
  Returned
    (join nl
       ([lit "Generate a single tweet (max 280 characters) that sounds natural and authentic.";
         nl ++ lit "Writing style requirements: " ++ style_prompt]
        ++ (if given topic
            then [nl ++ lit "Topic: " ++ dict_get topic []] else [])
        ++ (if given context
            then [nl ++ lit "Context/Inspiration: " ++ dict_get context []]
            else [])
        ++ (if config_get (include_hashtags settings) false
            then [nl ++ lit "Include up to "
                    ++ str_of_int (config_get (max_hashtags settings) 3%Z)
                    ++ lit " relevant hashtags if appropriate."]
            else [])
        ++ emojis
        ++ [nl ++ lit "IMPORTANT: Return ONLY the tweet text, nothing else. No quotes, no explanations."])).

Definition generate_tweet (topic context : option str) : generation str :=
  match tweet_prompt topic context with
  | Returned prompt => request_text prompt _fallback_tweet
  | Raised e => {| gen_result := Raised e; gen_requests := [] |}
  end.

Definition reply_prompt (original_tweet : str) (original_author : option str)
  : outcome str :=
  let! style_prompt := get_style_prompt py_str dict_keys style_analyzer in
  Returned
    (join nl
       ([lit "Generate a thoughtful and engaging reply to the following tweet.";
         nl ++ lit "Original tweet: " ++ original_tweet]
        ++ (if given original_author
            then [nl ++ lit "Replying to: @" ++ dict_get original_author []]
            else [])
        ++ [nl ++ lit "Writing style requirements: " ++ style_prompt;
            nl ++ lit "The reply should:";
            lit "- Be relevant and add value to the conversation";
            lit "- Sound natural and authentic";
            lit "- Be max 280 characters";
            lit "- Not be overly promotional or spammy";
            nl ++ lit "IMPORTANT: Return ONLY the reply text, nothing else. No quotes, no explanations."])).

Definition generate_reply (original_tweet : str)
    (original_author : option str) : generation str :=
  match reply_prompt original_tweet original_author with
  | Returned prompt => request_text prompt _fallback_reply
  | Raised e => {| gen_result := Raised e; gen_requests := [] |}
  end.

(** One line of the answer to [generate_tweet_ideas]: the idea it holds, if
    it starts with a digit, a dash or an asterisk and something is left
    after the markers. *)
Definition parse_idea_line (line : str) : option str :=
  let line := strip line in
  match line with
  | [] => None
  | c :: _ =>
      if isdigit c || startswith line (lit "-") || startswith line (lit "*")
      then
        let idea := strip (lstrip_by (in_chars idea_markers) line) in
        if truthy idea then Some idea else None
      else None
  end.

Definition ideas_prompt (count : Z) : outcome str :=
  let! topics :=
    match style_profile style_analyzer with
    | None => Returned []
    | Some profile =>
        if bool_decide (profile = ∅) then Returned []
        else
          let! clause :=
            listed_clause dict_keys profile (lit "topics_of_interest")
              (Some 5) (nl ++ lit "Preferred topics: ") in
          Returned clause
    end in
  Returned
    (join nl
       ([lit "Generate " ++ str_of_int count
           ++ lit " interesting and engaging tweet topic ideas."]
        ++ topics
        ++ [nl ++ lit "Provide diverse topics that would make for engaging tweets.";
            lit "Return as a numbered list, one topic per line."])).

Definition generate_tweet_ideas (count : Z) : generation (list str) :=
  match ideas_prompt count with
  | Raised e => {| gen_result := Raised e; gen_requests := [] |}
  | Returned prompt =>
      let request :=
        {| req_prompt := prompt; req_temperature := f0_9;
           req_max_tokens := 300 |} in
      match generate prompt f0_9 300%Z with
      | Returned response =>
          let ideas := omap parse_idea_line (split_on 10%N response) in
          {| gen_result := Returned (slice_to count ideas);
             gen_requests := [request] |}
      | Raised Exception =>
          {| gen_result := Returned []; gen_requests := [request] |}
      | Raised BaseException =>
          {| gen_result := Raised BaseException; gen_requests := [request] |}
      end
  end.

End Generation.

End Generator.

(** ** The rest of the scheduler ([scheduler.py]) *)

Section PostingSchedulerEntryPoints.

Variable cfg : config.
Variable w : world.

(** [post_now]: no handler, no test of the hours or of the daily limit. *)
Definition post_now (topic : option str) : M (option posted) :=
  let* tweet_text :=
    perform (GenerateTweet topic) (fun h => generate_tweet w h topic) in
  if truthy tweet_text then
    let* result :=
      perform (PostTweet tweet_text) (fun h => post_tweet w h tweet_text) in
    match result with
    | Some p =>
        let* posts := read posts_today in
        let* _ := write (set_posts_today (posts + 1)%Z) in
        ret (Some p)
    | None => ret None
    end
  else ret None.

(** [start]; the last statement, [self.scheduler.start()], sets the
    timers going and touches none of the fields modelled. *)
Definition start : M unit :=
  let* _ :=
    if config_get (posting_enabled cfg) true then _schedule_posting cfg w
    else ret tt in
  let* _ :=
    if config_get (replies_enabled cfg) true
    then _schedule_reply_monitoring cfg
    else ret tt in
  ret tt.

End PostingSchedulerEntryPoints.

(** ** The platform client ([client.py]): submitting text *)

Module TwitterClient.

(** One call of [self.client.create_tweet]. *)
Record api_call := {
  sent_text : str;
  in_reply_to : option tweet_id;
}.

Record submission := {
  sub_result : outcome (option posted);
  sub_calls : list api_call;
}.

Section Submit.

(** [self.client.create_tweet(text=..., in_reply_to_tweet_id=...)] followed
    by [response.data["id"]]: the id of the new tweet, or the exception
    raised on the way. *)
Variable create_tweet : str -> option tweet_id -> outcome tweet_id.

Definition submit (text : str) (reply_to : option tweet_id) : submission :=
  let text :=
    if 280 <? length text then take 277 text ++ lit "..." else text in
  let call := {| sent_text := text; in_reply_to := reply_to |} in
  match create_tweet text reply_to with
  | Returned id =>
      {| sub_result := Returned (Some {| posted_id := id; posted_text := text |});
         sub_calls := [call] |}
  | Raised Exception => {| sub_result := Returned None; sub_calls := [call] |}
  | Raised BaseException =>
      {| sub_result := Raised BaseException; sub_calls := [call] |}
  end.

Definition post_tweet (text : str) : submission := submit text None.

Definition reply_to_tweet (id : tweet_id) (text : str) : submission :=
  submit text (Some id).

End Submit.

End TwitterClient.

(** ** Settings as loaded ([config.py], [Config.get]) *)

Module Config.

(** The loop of [get] over the parts of the key. *)
Fixpoint walk (keys : list str) (v default : value) : value :=
  match keys with
  | [] => match v with VNone => default | _ => v end
  | k :: keys' =>
      match v with
      | VDict d =>
          match d !! k with
          | None | Some VNone => default
          | Some v' => walk keys' v' default
          end
      | _ => default
      end
  end.

(** [Config.get(key, default)] on the settings loaded from YAML. *)
Definition get (settings : value) (key : str) (default : value) : value :=
  walk (split_on 46%N key) settings default.

End Config.

(** ** The document processor ([document_processor.py]) *)

(** One turn of the loop of [extract_tweets], on the pair of
    [current_tweet] and [tweets]. *)
Definition extract_step (acc : str * list str) (sentence : str)
  : str * list str :=
  let sentence := strip sentence in
  if truthy sentence then
    if length acc.1 + length sentence + 2 <=? 280
    then (acc.1 ++ sentence ++ lit ". ", acc.2)
    else
      (sentence ++ lit ". ",
       if truthy (strip acc.1) then acc.2 ++ [strip acc.1] else acc.2)
  else acc.

Definition extract_tweets (text : str) : list str :=
  let sentences := re_split is_sentence_end text in
  let acc := fold_left extract_step sentences ([], []) in
  if truthy (strip acc.1) then acc.2 ++ [strip acc.1] else acc.2.

(** [re.split] on two or more line feeds: the pieces between the maximal
    runs of at least two of them. [in_run] holds while such a run is being
    read. *)
Fixpoint split_paragraphs (in_run : bool) (s : str) : list str :=
  match s with
  | [] => [[]]
  | c :: s' =>
      let keep :=
        match split_paragraphs false s' with
        | piece :: rest => (c :: piece) :: rest
        | [] => [[c]]
        end in
      if (c =? 10)%N then
        if in_run then split_paragraphs true s'
        else
          match s' with
          | c' :: _ => if (c' =? 10)%N then [] :: split_paragraphs true s' else keep
          | [] => keep
          end
      else keep
  end.

(** One turn of the loop of [split_into_segments]. *)
Definition segment_step (min_length : Z) (acc : str * list str) (para : str)
  : str * list str :=
  let para := strip para in
  if truthy para then
    if (Z.of_nat (length acc.1 + length para) <? min_length)%Z
    then (acc.1 ++ para ++ nl ++ nl, acc.2)
    else
      (para ++ nl ++ nl,
       if truthy acc.1 then acc.2 ++ [strip acc.1] else acc.2)
  else acc.

Definition split_into_segments (text : str) (min_length : Z) : list str :=
  let paragraphs := split_paragraphs false text in
  let acc := fold_left (segment_step min_length) paragraphs ([], []) in
  if truthy (strip acc.1) then acc.2 ++ [strip acc.1] else acc.2.

(** The keys of [_quantitative_analysis]. *)
Definition metric_keys : list str :=
  [lit "avg_sentence_length"; lit "avg_word_length"; lit "emoji_frequency";
   lit "hashtag_frequency"; lit "exclamation_frequency";
   lit "question_frequency"].

(** A float that does not carry a minus sign. *)
Definition unsigned (f : float) : Prop :=
  match f with
  | S754_zero s | S754_infinity s | S754_finite s _ _ => s = false
  | S754_nan => True
  end.

(** ** Notions used to state properties of the jobs *)

(** Surroundings in which no collaborator raises outside [Exception]. *)
Definition never_interrupted (w : world) : Prop :=
  (forall h n, generate_tweet_ideas w h n <> Raised BaseException)
  /\ (forall h t, generate_tweet w h t <> Raised BaseException)
  /\ (forall h t a, generate_reply w h t a <> Raised BaseException)
  /\ (forall h t, post_tweet w h t <> Raised BaseException)
  /\ (forall h i t, reply_to_tweet w h i t <> Raised BaseException)
  /\ (forall h i n, get_mentions w h i n <> Raised BaseException)
  /\ (forall h n, get_home_timeline w h n <> Raised BaseException).

(** A computation that does not let a [BaseException] through. *)
Definition uninterrupted {A} (m : M A) : Prop :=
  forall r, (m r).1 <> Raised BaseException.

(** A computation all of whose calls satisfy [Q]. *)
Definition calls_only (Q : call -> Prop) {A} (m : M A) : Prop :=
  forall r,
    exists new, log (m r).2 = log r ++ new /\ Forall (fun e => Q (made e)) new.

(** The calls that [_monitor_timeline] may make after it has fetched
    [tweets]: a random draw, the generation of a reply, and the submission
    of a reply to one of the tweets that the account [own] did not write. *)
Definition timeline_call (own : option tweet_id) (tweets : list tweet)
    (c : call) : Prop :=
  match c with
  | RandomRandom | GenerateReply _ _ => True
  | ReplyToTweet id _ =>
      exists tw, tw ∈ tweets /\ tw_id tw = id /\ tw_author_id tw <> own
  | _ => False
  end.

(** The number of replies among the logged calls [new], made after the
    history [h], that the platform accepted. *)
Fixpoint accepted_replies (w : world) (h new : list entry) : nat :=
  match new with
  | [] => 0
  | e :: rest =>
      (match made e with
       | ReplyToTweet id text =>
           match reply_to_tweet w h id text with
           | Returned (Some _) => 1
           | _ => 0
           end
       | _ => 0
       end)
      + accepted_replies w (h ++ [e]) rest
  end.

(** The original texts for which a reply was requested, in order. *)
Definition replies_requested (new : list entry) : list str :=
  omap (fun e =>
          match made e with
          | GenerateReply original _ => Some original
          | _ => None
          end) new.

(** A text that is not empty and is stripped on both sides. *)
Definition solid (p : char -> bool) (y : str) : Prop :=
  y <> [] /\ lstrip_by p y = y /\ rstrip_by p y = y.

(** The sentences that [extract_tweets] works on: the pieces between
    sentence ends, stripped, without the empty ones. *)
Definition sentences_of (text : str) : list str :=
  filter (fun s => truthy s = true) (map strip (re_split is_sentence_end text)).

(** What the loop of [extract_tweets] keeps true of [current_tweet] and
    [tweets] after the sentences [done]. *)
Definition extract_invariant (acc : str * list str) (done : list str) : Prop :=
  concat (map (fun t => t ++ lit " ") acc.2) ++ acc.1
  = concat (map (fun s => s ++ lit ". ") done)
  /\ Forall (fun t => t <> [] /\ strip t = t) acc.2
  /\ (acc.1 = [] \/ exists y, acc.1 = y ++ lit " " /\ solid isspace y).

(** The paragraphs that [split_into_segments] works on. *)
Definition paragraphs_of (text : str) : list str :=
  filter (fun s => truthy s = true) (map strip (split_paragraphs false text)).

(** The same for the loop of [split_into_segments]. *)
Definition segment_invariant (acc : str * list str) (done : list str) : Prop :=
  concat (map (fun t => t ++ nl ++ nl) acc.2) ++ acc.1
  = concat (map (fun s => s ++ nl ++ nl) done)
  /\ Forall (fun t => t <> [] /\ strip t = t) acc.2
  /\ (acc.1 = [] \/ exists y, acc.1 = y ++ nl ++ nl /\ solid isspace y).

(** ** Notions used to state properties of the settings *)

(** The value [found] by following the parts [path], one after the other,
    from [v] through nested dictionaries. *)
Inductive reaches : value -> list str -> value -> Prop :=
| reaches_here v : reaches v [] v
| reaches_step d k v path found :
    d !! k = Some v -> reaches v path found ->
    reaches (VDict d) (k :: path) found.

(** The value [v] has nothing under [k]: it is no dictionary, or it is a
    dictionary in which [k] is absent or null. *)
Definition lacks (v : value) (k : str) : Prop :=
  match v with
  | VDict d => d !! k = None \/ d !! k = Some VNone
  | _ => True
  end.

(** Settings with a number where the section [posting_hours] is expected. *)
Definition flat_hours : value :=
  VDict {[ lit "posting" := VDict {[ lit "posting_hours" := VInt 5 ]} ]}.

(** ** Sample inputs *)

(** A configuration whose only setting is [replies.reply_probability: 0]. *)
Definition never_reply : config :=
  {| posting_enabled := None; posting_max_posts_per_day := None;
     posting_hours_start := None; posting_hours_end := None;
     replies_enabled := None; replies_check_interval_minutes := None;
     replies_reply_probability := Some 0%Q;
     replies_keywords_to_monitor := None;
     replies_max_replies_per_check := None |}.

Definition hello_tweet : tweet :=
  {| tw_id := IdStr (lit "1"); tw_text := Some (lit "hello");
     tw_author_id := Some (IdStr (lit "7")); tw_author_screen_name := None |}.

(** A language model client whose every call raises, a JSON parser that
    rejects its input, and an analyzer that has no profile yet. *)
Definition failing_llm : str -> outcome str := fun _ => Raised Exception.
Definition no_json : str -> option value := fun _ => None.
Definition fresh_analyzer : analyzer := {| style_profile := None |}.

(** A scheduler that has posted nothing and seen no mention, before any
    call. *)
Definition idle : run :=
  {| sched := {| posts_today := 0; last_mention_id := None; jobs := ∅ |};
     log := [] |}.

(** Surroundings in which the clock shows [t], the generator has no idea but
    writes the tweet "hi", the platform accepts every post and has nothing to
    fetch, and [random.randint] is at offset [d] of its range. *)
Definition calm_world (t : time) (d : Z) : world :=
  {| now := t;
     user_id := None;
     generate_tweet_ideas := fun _ _ => Returned [];
     generate_tweet := fun _ _ => Returned (lit "hi");
     generate_reply := fun _ _ _ => Returned (lit "ok");
     post_tweet := fun _ text =>
       Returned (Some {| posted_id := IdInt 1; posted_text := text |});
     reply_to_tweet := fun _ _ text =>
       Returned (Some {| posted_id := IdInt 2; posted_text := text |});
     get_mentions := fun _ _ _ => Returned [];
     get_home_timeline := fun _ _ => Returned [];
     choice_index := fun _ => 0;
     random_draw := fun _ => 0%Q;
     randint_offset := fun _ => d |}.


(** Surroundings with two mentions to fetch, newest first, in which every
    attempt to generate a reply raises and the timeline cannot be read. *)
Definition greeted_world : world :=
  {| now := {| hour := 12; minute := 0; second := 0; microsecond := 0 |};
     user_id := None;
     generate_tweet_ideas := fun _ _ => Returned [];
     generate_tweet := fun _ _ => Returned (lit "hi");
     generate_reply := fun _ _ _ => Raised Exception;
     post_tweet := fun _ _ => Returned None;
     reply_to_tweet := fun _ _ _ => Returned None;
     get_mentions := fun _ _ _ =>
       Returned
         [{| tw_id := IdInt 42; tw_text := Some (lit "hi there");
             tw_author_id := None; tw_author_screen_name := None |};
          hello_tweet];
     get_home_timeline := fun _ _ => Raised Exception;
     choice_index := fun _ => 0;
     random_draw := fun _ => 0%Q;
     randint_offset := fun _ => 0%Z |}.

(** Surroundings like [greeted_world], but in which the generator is
    interrupted ([KeyboardInterrupt]) at the first reply. *)
Definition interrupted_world : world :=
  {| now := now greeted_world;
     user_id := user_id greeted_world;
     generate_tweet_ideas := generate_tweet_ideas greeted_world;
     generate_tweet := generate_tweet greeted_world;
     generate_reply := fun _ _ _ => Raised BaseException;
     post_tweet := post_tweet greeted_world;
     reply_to_tweet := reply_to_tweet greeted_world;
     get_mentions := get_mentions greeted_world;
     get_home_timeline := get_home_timeline greeted_world;
     choice_index := choice_index greeted_world;
     random_draw := random_draw greeted_world;
     randint_offset := randint_offset greeted_world |}.

(** A configuration that replies whenever the keyword "ai" occurs. *)
Definition reply_on_ai : config :=
  {| posting_enabled := None; posting_max_posts_per_day := None;
     posting_hours_start := None; posting_hours_end := None;
     replies_enabled := None; replies_check_interval_minutes := None;
     replies_reply_probability := Some 1%Q;
     replies_keywords_to_monitor := Some [lit "ai"];
     replies_max_replies_per_check := None |}.

(** Like [reply_on_ai], with a probability of 0. *)
Definition never_reply_on_ai : config :=
  {| posting_enabled := None; posting_max_posts_per_day := None;
     posting_hours_start := None; posting_hours_end := None;
     replies_enabled := None; replies_check_interval_minutes := None;
     replies_reply_probability := Some 0%Q;
     replies_keywords_to_monitor := Some [lit "ai"];
     replies_max_replies_per_check := None |}.

(** Like [reply_on_ai], with a probability of three quarters. *)
Definition often_reply_on_ai : config :=
  {| posting_enabled := None; posting_max_posts_per_day := None;
     posting_hours_start := None; posting_hours_end := None;
     replies_enabled := None; replies_check_interval_minutes := None;
     replies_reply_probability := Some (3 # 4)%Q;
     replies_keywords_to_monitor := Some [lit "ai"];
     replies_max_replies_per_check := None |}.

(** No setting under [content_generation]. *)
Definition plain_generation : generation_settings :=
  {| include_hashtags := None; max_hashtags := None;
     include_emojis := None; temperature := None |}.

(** [str.isdigit] on ASCII text. *)
Definition ascii_isdigit (c : char) : bool := ((48 <=? c) && (c <=? 57))%N.

(** Posting hours from 22 to 6, and a limit of zero posts a day. *)
Definition night_shift : config :=
  {| posting_enabled := None; posting_max_posts_per_day := None;
     posting_hours_start := Some 22%Z; posting_hours_end := Some 6%Z;
     replies_enabled := None; replies_check_interval_minutes := None;
     replies_reply_probability := None;
     replies_keywords_to_monitor := None;
     replies_max_replies_per_check := None |}.

Definition never_post : config :=
  {| posting_enabled := None; posting_max_posts_per_day := Some 0%Z;
     posting_hours_start := None; posting_hours_end := None;
     replies_enabled := None; replies_check_interval_minutes := None;
     replies_reply_probability := None;
     replies_keywords_to_monitor := None;
     replies_max_replies_per_check := None |}.

(** A language model that answers with an empty object, and a JSON parser
    for which every object gives a tone and a frequency of emojis. *)
Definition terse_llm : str -> outcome str := fun _ => Returned (lit "{}").
Definition tone_json : str -> option value :=
  fun _ =>
    Some (VDict {[ lit "tone" := VStr (lit "dry");
                   lit "emoji_frequency" := VInt 99 ]}).

(** A computation that writes no field of the scheduler: it leaves the
    scheduler as it found it, and every call it makes is logged with that
    scheduler. *)
Definition quiet {A} (m : M A) : Prop :=
  forall r,
    sched (m r).2 = sched r
    /\ exists new,
         log (m r).2 = log r ++ new
         /\ Forall (fun e => at_state e = sched r) new.

(** * Properties *)

(** ** Stripping *)

Section StripFacts.
Variable p : char -> bool.

Lemma lstrip_by_length s : length (lstrip_by p s) <= length s.
Proof.
  induction s as [|c s IH]; simpl; [lia|].
  destruct (p c); simpl; lia.
Qed.

Lemma rstrip_by_length s : length (rstrip_by p s) <= length s.
Proof.
  induction s as [|c s IH]; simpl; [lia|].
  destruct (rstrip_by p s) as [|x r]; simpl in *.
  - destruct (p c); simpl; lia.
  - lia.
Qed.

Lemma strip_by_length s : length (strip_by p s) <= length s.
Proof.
  unfold strip_by.
  pose proof (rstrip_by_length (lstrip_by p s)).
  pose proof (lstrip_by_length s). lia.
Qed.

(** A text that [lstrip_by] leaves alone does not start with a stripped
    character. *)
Lemma lstrip_by_fixed_head c s :
  lstrip_by p (c :: s) = c :: s -> p c = false.
Proof.
  simpl. destruct (p c); [|reflexivity].
  intros E. pose proof (lstrip_by_length s) as L.
  rewrite E in L. simpl in L. lia.
Qed.

Lemma lstrip_by_idem s : lstrip_by p (lstrip_by p s) = lstrip_by p s.
Proof.
  induction s as [|c s IH]; simpl; [reflexivity|].
  destruct (p c) eqn:E; [exact IH|].
  simpl. rewrite E. reflexivity.
Qed.

Lemma rstrip_by_idem s : rstrip_by p (rstrip_by p s) = rstrip_by p s.
Proof.
  induction s as [|c s IH]; simpl; [reflexivity|].
  destruct (rstrip_by p s) as [|x r] eqn:E.
  - destruct (p c) eqn:Ec; simpl; [reflexivity|].
    rewrite Ec. reflexivity.
  - change (rstrip_by p (c :: x :: r)) with
      (match rstrip_by p (x :: r) with
       | [] => if p c then [] else [c]
       | y :: r' => c :: y :: r'
       end).
    rewrite IH. reflexivity.
Qed.

(** Stripping on the right keeps a left-stripped text left-stripped. *)
Lemma lstrip_by_rstrip_by s :
  lstrip_by p s = s -> lstrip_by p (rstrip_by p s) = rstrip_by p s.
Proof.
  destruct s as [|c s]; [reflexivity|].
  intros E. apply lstrip_by_fixed_head in E.
  simpl. destruct (rstrip_by p s); rewrite ?E; simpl; rewrite E; reflexivity.
Qed.

Lemma strip_by_idem s : strip_by p (strip_by p s) = strip_by p s.
Proof.
  unfold strip_by.
  rewrite (lstrip_by_rstrip_by (lstrip_by p s)) by apply lstrip_by_idem.
  apply rstrip_by_idem.
Qed.
End StripFacts.

(** ** The content generator *)

Lemma length_lit_dots : length (lit "...") = 3.
Proof. reflexivity. Qed.

(** The text that [_clean_tweet] passes to its last [strip]. *)
Lemma truncated_length (text : str) :
  length (if 280 <? length text then take 277 text ++ lit "..." else text)
  <= 280.
Proof.
  destruct (280 <? length text) eqn:E.
  - apply Nat.ltb_lt in E.
    rewrite length_app, length_take, length_lit_dots. lia.
  - apply Nat.ltb_ge in E. exact E.
Qed.

Lemma strip_truncated_length (text : str) :
  length
    (strip (if 280 <? length text then take 277 text ++ lit "..." else text))
  <= 280.
Proof.
  unfold strip.
  etransitivity; [apply strip_by_length|apply truncated_length].
Qed.

(** C2. Whatever the input and whatever the lower-casing, the text that
    [_clean_tweet] returns has at most 280 characters. *)
Theorem clean_tweet_length (lower : str -> str) (text : str) :
  length (_clean_tweet lower text) <= 280.
Proof.
  unfold _clean_tweet.
  set (stripped := fold_left _ _ _).
  apply strip_truncated_length.
Qed.

(** The label of a model answer is removed. *)
Example clean_tweet_removes_label :
  _clean_tweet ascii_lower (lit "Here's the tweet: Great news today! #ai")
  = lit "Great news today! #ai".
Proof. vm_compute. reflexivity. Qed.

(** A text of 300 letters is cut to 277 letters and three dots. *)
Example clean_tweet_truncates :
  _clean_tweet ascii_lower (repeat 97%N 300) = repeat 97%N 277 ++ lit "...".
Proof. vm_compute. reflexivity. Qed.

(** C3, as stated, fails: on ["tweet: tweet: hi"] the first application
    removes one label and the second removes the other. *)
Lemma clean_tweet_twice_differs :
  _clean_tweet ascii_lower (_clean_tweet ascii_lower (lit "tweet: tweet: hi"))
  <> _clean_tweet ascii_lower (lit "tweet: tweet: hi").
Proof. vm_compute. discriminate. Qed.

Lemma strip_prefix_no_match lower text prefix :
  startswith (lower text) prefix = false -> strip_prefix lower text prefix = text.
Proof. unfold strip_prefix. intros ->. reflexivity. Qed.

Lemma fold_strip_prefix_no_match lower text (ps : list str) :
  Forall (fun prefix => startswith (lower text) prefix = false) ps ->
  fold_left (strip_prefix lower) ps text = text.
Proof.
  induction 1 as [|prefix ps H _ IH]; simpl; [reflexivity|].
  rewrite strip_prefix_no_match by exact H. exact IH.
Qed.

(** C3, amended. A second application of [_clean_tweet] changes nothing
    when the cleaned text neither begins nor ends with a quote character and
    does not begin, in lower case, with one of the label prefixes. *)
Theorem clean_tweet_idempotent_on_clean (lower : str -> str) (text : str) :
  let cleaned := _clean_tweet lower text in
  strip_chars quote_chars cleaned = cleaned ->
  Forall (fun prefix => startswith (lower cleaned) prefix = false) prefixes ->
  _clean_tweet lower cleaned = cleaned.
Proof.
  intros cleaned Hquote Hprefix.
  assert (Hstrip : strip cleaned = cleaned).
  { unfold cleaned, _clean_tweet, strip. apply strip_by_idem. }
  assert (Hlen : length cleaned <= 280).
  { unfold cleaned, _clean_tweet. apply strip_truncated_length. }
  unfold _clean_tweet at 1.
  rewrite Hstrip, Hquote, (fold_strip_prefix_no_match _ _ _ Hprefix).
  replace (280 <? length cleaned) with false
    by (symmetry; apply Nat.ltb_ge; exact Hlen).
  exact Hstrip.
Qed.

Lemma clean_tweet_idempotent_on_clean_witness :
  _clean_tweet ascii_lower
    (_clean_tweet ascii_lower (lit "Here's the tweet: Great news today! #ai"))
  = _clean_tweet ascii_lower (lit "Here's the tweet: Great news today! #ai").
Proof.
  apply (clean_tweet_idempotent_on_clean ascii_lower
           (lit "Here's the tweet: Great news today! #ai")).
  - vm_compute. reflexivity.
  - repeat constructor.
Defined.

(** C7, as stated, fails: the draw 0.0 lies in [0, 1) and does not exceed a
    probability of 0, so with no keyword list the tweet is accepted. *)
Lemma should_reply_accepts_draw_zero :
  (0 <= 0)%Q /\ (0 < 1)%Q /\
  should_reply_to_tweet ascii_lower never_reply 0%Q hello_tweet = true.
Proof. split; [discriminate|split; reflexivity]. Qed.

(** C7, amended. With [reply_probability] configured to 0,
    [should_reply_to_tweet] declines for every candidate tweet and every
    random draw greater than 0. The draw 0.0 does not exceed the
    probability and passes the gate: the tweet is then accepted exactly when
    no keyword is configured or its text contains, whatever the case, one
    of the keywords, and declined otherwise. *)
Theorem should_reply_at_probability_zero
    (lower : str -> str) (cfg : config) (probability : Q) (tw : tweet) :
  replies_reply_probability cfg = Some probability ->
  (probability == 0)%Q ->
  (forall random : Q,
     (0 < random)%Q -> should_reply_to_tweet lower cfg random tw = false)
  /\ (forall random : Q,
        (random == 0)%Q ->
        should_reply_to_tweet lower cfg random tw = true
        <-> (config_get (replies_keywords_to_monitor cfg) [] = []
             \/ exists keyword,
                  keyword ∈ config_get (replies_keywords_to_monitor cfg) []
                  /\ contains (lower (dict_get (tw_text tw) []))
                       (lower keyword) = true)).
Proof.
  intros Hcfg Hzero. split.
  - intros random Hpos.
    unfold should_reply_to_tweet. rewrite Hcfg. simpl.
    destruct (Qle_bool random probability) eqn:E; [|reflexivity].
    apply Qle_bool_iff in E. rewrite Hzero in E.
    exfalso. apply (Qlt_not_le _ _ Hpos E).
  - intros random Hdraw.
    unfold should_reply_to_tweet. rewrite Hcfg. simpl.
    assert (E : Qle_bool random probability = true).
    { apply Qle_bool_iff. rewrite Hdraw, Hzero. apply Qle_refl. }
    rewrite E. simpl.
    destruct (config_get (replies_keywords_to_monitor cfg) [])
      as [|k ks] eqn:Ek.
    + split; [left; reflexivity|reflexivity].
    + rewrite existsb_exists. split.
      * intros (keyword & Hin & Hc). right. exists keyword.
        split; [apply list_elem_of_In; exact Hin|exact Hc].
      * intros [H|(keyword & Hin & Hc)]; [discriminate|].
        exists keyword. split; [apply list_elem_of_In; exact Hin|exact Hc].
Qed.

Lemma should_reply_at_probability_zero_witness :
  should_reply_to_tweet ascii_lower never_reply_on_ai (1 # 2)%Q hello_tweet
  = false
  /\ (should_reply_to_tweet ascii_lower never_reply_on_ai 0%Q hello_tweet
      = true
      <-> (config_get (replies_keywords_to_monitor never_reply_on_ai) [] = []
           \/ exists keyword,
                keyword
                ∈ config_get (replies_keywords_to_monitor never_reply_on_ai) []
                /\ contains (ascii_lower (dict_get (tw_text hello_tweet) []))
                     (ascii_lower keyword) = true)).
Proof.
  split.
  - apply (proj1 (should_reply_at_probability_zero ascii_lower
                    never_reply_on_ai 0%Q hello_tweet
                    ltac:(reflexivity) ltac:(reflexivity))).
    reflexivity.
  - apply (proj2 (should_reply_at_probability_zero ascii_lower
                    never_reply_on_ai 0%Q hello_tweet
                    ltac:(reflexivity) ltac:(reflexivity))).
    reflexivity.
Defined.

(** With a probability of 0 and the keyword "ai", the draw 0.0 passes the
    gate and the keywords decide: a tweet that contains the keyword is
    accepted, one that does not is declined. *)
Example should_reply_at_draw_zero_by_keyword :
  should_reply_to_tweet ascii_lower never_reply_on_ai 0%Q
    {| tw_id := IdStr (lit "3"); tw_text := Some (lit "I love AI");
       tw_author_id := None; tw_author_screen_name := None |} = true
  /\ should_reply_to_tweet ascii_lower never_reply_on_ai 0%Q hello_tweet
     = false.
Proof. split; vm_compute; reflexivity. Qed.

(** With probability 1 and the keyword "ai", a tweet is accepted exactly
    when its text contains the keyword in any case. *)
Example should_reply_on_keyword :
  should_reply_to_tweet ascii_lower reply_on_ai (1 # 2)%Q
    {| tw_id := IdStr (lit "3"); tw_text := Some (lit "I love AI");
       tw_author_id := None; tw_author_screen_name := None |} = true
  /\ should_reply_to_tweet ascii_lower reply_on_ai (1 # 2)%Q hello_tweet
     = false.
Proof. split; vm_compute; reflexivity. Qed.

(** ** The style analyzer *)

(** C8. On the empty list of samples [analyze_samples] returns the empty
    dictionary, sends nothing to the language model and leaves the analyzer
    as it was. *)
Theorem analyze_samples_empty
    (isalnum : char -> bool) (json_loads : str -> option value)
    (analyze : str -> outcome str) (self : analyzer) :
  analyze_samples isalnum json_loads analyze self []
  = {| result := Returned ∅; after := self; llm_calls := [] |}.
Proof. reflexivity. Qed.

Section AnalyzePaths.
Variable isalnum : char -> bool.
Variable json_loads : str -> option value.
Variable analyze : str -> outcome str.
Variable self : analyzer.

(** The prompt that [analyze_samples] sends for a batch of samples. *)
Let prompt_of (samples : list str) : str :=
  analysis_prompt (join (nl ++ nl ++ lit "---" ++ nl ++ nl) (take 10 samples)).

(** The path through [self.style_profile = style_profile]: the profile
    returned is the one stored. *)
Lemma analyze_samples_success_stores samples response d :
  samples <> [] ->
  analyze (prompt_of samples) = Returned response ->
  _extract_json json_loads response = VDict d ->
  d <> ∅ ->
  let run := analyze_samples isalnum json_loads analyze self samples in
  result run = Returned (_quantitative_analysis isalnum samples ∪ d)
  /\ style_profile (after run)
     = Some (_quantitative_analysis isalnum samples ∪ d).
Proof.
  intros Hne Hcall Hjson Hd. destruct samples as [|s ss]; [done|].
  unfold analyze_samples. fold (prompt_of (s :: ss)).
  rewrite Hcall, Hjson. simpl.
  rewrite bool_decide_eq_false_2 by exact Hd. split; reflexivity.
Qed.


End AnalyzePaths.

(** C1 on the code. With one sample, no profile yet and a language model
    client that raises, [analyze_samples] returns the default profile and
    the analyzer still has no profile: what is returned is not what is
    stored. *)
Theorem analyze_samples_default_not_stored :
  let run :=
    analyze_samples ascii_isalnum no_json failing_llm fresh_analyzer
      [lit "hi"] in
  result run = Returned (_create_default_profile ascii_isalnum [lit "hi"])
  /\ style_profile (after run) = None
  /\ llm_calls run <> [].
Proof. repeat split. discriminate. Qed.

(** *** The default profile *)

Lemma lookup_list_to_map_cons (k k' : str) (v : value) (l : list (str * value)) :
  (list_to_map ((k', v) :: l) : gmap str value) !! k
  = if bool_decide (k' = k) then Some v
    else (list_to_map l : gmap str value) !! k.
Proof.
  rewrite list_to_map_cons.
  case_bool_decide as E.
  - subst. apply lookup_insert_eq.
  - apply lookup_insert_ne. exact E.
Qed.

(** One step of a lookup in a dictionary literal whose keys are known. *)
Ltac key_step :=
  rewrite lookup_list_to_map_cons;
  match goal with
  | |- context [bool_decide (?a = ?b)] =>
      let v := eval vm_compute in (bool_decide (a = b)) in
      replace (bool_decide (a = b)) with v by (vm_compute; reflexivity)
  end;
  cbv iota.

Ltac key_lookup :=
  rewrite ?lookup_union; unfold item, _quantitative_analysis;
  repeat key_step;
  rewrite ?list_to_map_nil, ?lookup_empty; simpl; try reflexivity.

(** C4, as stated, fails: the default profile lists one personality
    trait. *)
Lemma default_profile_has_a_personality_trait :
  _create_default_profile ascii_isalnum [lit "hi"] !! lit "personality_traits"
  <> Some (VList []).
Proof. vm_compute. discriminate. Qed.

(** C4, amended. For a non-empty list of samples the default profile has the
    fixed values tone "neutral", voice "conversational", vocabulary_level
    "moderate", sentence_style "varied" and punctuation_patterns
    ["standard"]; its emoji_usage is "moderate" when the emoji frequency
    exceeds 0.5 and "rare" otherwise, its hashtag_style is "occasional" when
    the hashtag frequency exceeds 0.2 and "none" otherwise, the frequencies
    being the counts over the samples joined by spaces, divided by the
    number of samples; common_phrases, topics_of_interest and writing_quirks
    are empty and personality_traits is ["informative"]. *)
Theorem default_profile_fields (isalnum : char -> bool) (samples : list str) :
  samples <> [] ->
  let profile := _create_default_profile isalnum samples in
  let total_text := join (lit " ") samples in
  let n := Z.of_nat (length samples) in
  let emoji_frequency :=
    truediv (Z.of_nat (length (filter (fun c => is_emoji c = true) total_text)))
      n in
  let hashtag_frequency :=
    truediv (Z.of_nat (count_hashtags isalnum false total_text)) n in
  profile !! lit "tone" = Some (VStr (lit "neutral"))
  /\ profile !! lit "voice" = Some (VStr (lit "conversational"))
  /\ profile !! lit "vocabulary_level" = Some (VStr (lit "moderate"))
  /\ profile !! lit "sentence_style" = Some (VStr (lit "varied"))
  /\ profile !! lit "punctuation_patterns"
     = Some (VList [VStr (lit "standard")])
  /\ profile !! lit "emoji_frequency" = Some (VFloat emoji_frequency)
  /\ profile !! lit "hashtag_frequency" = Some (VFloat hashtag_frequency)
  /\ profile !! lit "emoji_usage"
     = Some (VStr (if float_gt emoji_frequency f0_5
                   then lit "moderate" else lit "rare"))
  /\ profile !! lit "hashtag_style"
     = Some (VStr (if float_gt hashtag_frequency f0_2
                   then lit "occasional" else lit "none"))
  /\ profile !! lit "common_phrases" = Some (VList [])
  /\ profile !! lit "personality_traits"
     = Some (VList [VStr (lit "informative")])
  /\ profile !! lit "topics_of_interest" = Some (VList [])
  /\ profile !! lit "writing_quirks" = Some (VList []).
Proof.
  intros Hne profile total_text n emoji_frequency hashtag_frequency.
  destruct samples as [|s ss]; [done|].
  unfold profile, _create_default_profile.
  repeat split; key_lookup.
Qed.

Lemma default_profile_fields_witness :
  _create_default_profile ascii_isalnum [lit "so good! #ai"; lit "hm"]
    !! lit "hashtag_style"
  = Some (VStr (lit "occasional")).
Proof.
  pose proof (default_profile_fields ascii_isalnum
                [lit "so good! #ai"; lit "hm"]) as H.
  assert (Hne : [lit "so good! #ai"; lit "hm"] <> []) by discriminate.
  specialize (H Hne). simpl in H.
  destruct H as (_ & _ & _ & _ & _ & _ & _ & _ & H & _).
  exact H.
Defined.

(** ** The scheduler *)

(** *** Equations of the job monad *)

Lemma bind_read {A B} (field : scheduler -> A) (k : A -> M B) r :
  bind (read field) k r = k (field (sched r)) r.
Proof. reflexivity. Qed.

Lemma bind_write {B} (update : scheduler -> scheduler) (k : unit -> M B) r :
  bind (write update) k r
  = k tt {| sched := update (sched r); log := log r |}.
Proof. reflexivity. Qed.

Lemma bind_lift_returned {A B} (a : A) (k : A -> M B) r :
  bind (lift (Returned a)) k r = k a r.
Proof. reflexivity. Qed.

Lemma bind_lift_raised {A B} (e : raised) (k : A -> M B) r :
  bind (lift (Raised e)) k r = (Raised e, r).
Proof. reflexivity. Qed.

Lemma bind_bind {A B C} (m : M A) (k1 : A -> M B) (k2 : B -> M C) r :
  bind (bind m k1) k2 r = bind m (fun a => bind (k1 a) k2) r.
Proof. unfold bind. destruct (m r) as [[a|e] r']; reflexivity. Qed.

Lemma try_except_run (m : M unit) r : (try_except m r).2 = (m r).2.
Proof. unfold try_except. destruct (m r) as [[[]|[|]] r']; reflexivity. Qed.

(** *** Computations that write nothing *)

Lemma quiet_ret {A} (a : A) : quiet (ret a).
Proof.
  intros r. split; [reflexivity|].
  exists []. split; [symmetry; apply app_nil_r|constructor].
Qed.

Lemma quiet_lift {A} (o : outcome A) : quiet (lift o).
Proof.
  intros r. split; [reflexivity|].
  exists []. split; [symmetry; apply app_nil_r|constructor].
Qed.

Lemma quiet_perform {A} (c : call) (answer : list entry -> outcome A) :
  quiet (perform c answer).
Proof.
  intros r. split; [reflexivity|].
  exists [{| at_state := sched r; made := c |}].
  split; [reflexivity|]. repeat constructor.
Qed.

Lemma quiet_bind {A B} (m : M A) (k : A -> M B) :
  quiet m -> (forall a, quiet (k a)) -> quiet (bind m k).
Proof.
  intros Hm Hk r. unfold bind.
  destruct (Hm r) as (Hs & new & Hl & Hnew).
  destruct (m r) as [[a|e] r'] eqn:E; simpl in *.
  - destruct (Hk a r') as (Hs' & new' & Hl' & Hnew').
    split; [congruence|].
    exists (new ++ new'). split.
    + rewrite Hl', Hl. symmetry. apply app_assoc.
    + apply Forall_app. split; [exact Hnew|].
      rewrite <- Hs. exact Hnew'.
  - split; [exact Hs|]. exists new. split; assumption.
Qed.

Lemma quiet_try_except (m : M unit) : quiet m -> quiet (try_except m).
Proof. intros Hm r. rewrite try_except_run. apply Hm. Qed.

Lemma quiet_for_each {A} (xs : list A) (body : A -> M unit) :
  (forall x, quiet (body x)) -> quiet (for_each xs body).
Proof.
  intros Hbody. induction xs as [|x xs IH]; simpl.
  - apply quiet_ret.
  - apply quiet_bind; [apply Hbody|intros _; exact IH].
Qed.

Create HintDb quiet.
#[local] Hint Resolve quiet_ret quiet_lift quiet_perform : quiet.

(** Takes a goal [quiet m] apart along the structure of [m]. *)
Ltac quiet_steps :=
  repeat first
    [ solve [auto with quiet]
    | apply quiet_try_except
    | apply quiet_for_each; intros ?
    | apply quiet_bind; [|intros ?]
    | match goal with
      | |- quiet (if ?b then _ else _) => destruct b
      | |- quiet (match ?x with _ => _ end) => destruct x
      end ].

Lemma quiet_reply_to_mention w mention : quiet (_reply_to_mention w mention).
Proof. unfold _reply_to_mention. quiet_steps. Qed.

Lemma quiet_timeline_loop lower cfg w max_replies tweets :
  forall replies_sent,
    quiet (timeline_loop lower cfg w max_replies tweets replies_sent).
Proof.
  induction tweets as [|tw rest IH]; intros replies_sent; simpl.
  - apply quiet_ret.
  - quiet_steps; apply IH.
Qed.

Lemma quiet_monitor_timeline lower cfg w : quiet (_monitor_timeline lower cfg w).
Proof.
  unfold _monitor_timeline. quiet_steps. apply quiet_timeline_loop.
Qed.

(** *** The reply monitor *)

(** C10. When the mentions fetched are not empty, the cursor is set to the
    id of the first of them before anything else is done: after the firing,
    however it ends, [last_mention_id] is that id, and every call made after
    the fetch, each generation and each submission of a reply among them,
    was made with the cursor already there. *)
Theorem monitor_job_sets_cursor_first
    (lower : str -> str) (cfg : config) (w : world) (r : run)
    (newest : tweet) (rest : list tweet) :
  get_mentions w (log r) (last_mention_id (sched r)) 10%Z
  = Returned (newest :: rest) ->
  let r' := (_monitor_and_reply_job lower cfg w r).2 in
  last_mention_id (sched r') = Some (tw_id newest)
  /\ exists later,
       log r'
       = log r
         ++ {| at_state := sched r;
               made := GetMentions (last_mention_id (sched r)) 10 |} :: later
       /\ Forall
            (fun e => last_mention_id (at_state e) = Some (tw_id newest))
            later.
Proof.
  intros Hfetch r'.
  set (fetch := {| at_state := sched r;
                   made := GetMentions (last_mention_id (sched r)) 10 |}).
  set (r1 := {| sched := set_last_mention_id (tw_id newest) (sched r);
                log := log r ++ [fetch] |}).
  set (replies :=
         let* _ := for_each (newest :: rest) (_reply_to_mention w) in
         _monitor_timeline lower cfg w).
  assert (Hrun : r' = (replies r1).2).
  { unfold r', _monitor_and_reply_job.
    rewrite try_except_run, bind_read.
    unfold bind at 1, perform at 1. rewrite Hfetch.
    cbv iota. rewrite bind_bind, bind_write. reflexivity. }
  assert (Hq : quiet replies).
  { apply quiet_bind; [apply quiet_for_each; intros m|intros _].
    - apply quiet_reply_to_mention.
    - apply quiet_monitor_timeline. }
  destruct (Hq r1) as (Hs & later & Hl & Hlater).
  rewrite Hrun. split.
  - rewrite Hs. reflexivity.
  - exists later. split.
    + rewrite Hl. unfold r1. simpl. rewrite <- app_assoc. reflexivity.
    + eapply Forall_impl; [exact Hlater|].
      intros e He. simpl in He. rewrite He. reflexivity.
Qed.

Lemma monitor_job_sets_cursor_first_witness :
  last_mention_id
    (sched
       (_monitor_and_reply_job ascii_lower no_settings greeted_world idle).2)
  = Some (IdInt 42).
Proof.
  pose proof (monitor_job_sets_cursor_first ascii_lower no_settings
                greeted_world idle
                {| tw_id := IdInt 42; tw_text := Some (lit "hi there");
                   tw_author_id := None; tw_author_screen_name := None |}
                [hello_tweet]) as H.
  assert (Hfetch :
    get_mentions greeted_world (log idle) (last_mention_id (sched idle)) 10%Z
    = Returned
        [{| tw_id := IdInt 42; tw_text := Some (lit "hi there");
            tw_author_id := None; tw_author_screen_name := None |};
         hello_tweet]) by reflexivity.
  exact (proj1 (H Hfetch)).
Defined.

(** A reply that fails is passed over, and the timeline is read next; an
    interruption ends the firing at once. The cursor is set in both cases. *)
Example monitor_job_failed_replies :
  let r' := (_monitor_and_reply_job ascii_lower no_settings greeted_world idle) in
  r'.1 = Returned tt
  /\ map made (log r'.2)
     = [GetMentions None 10;
        GenerateReply (lit "hi there") None;
        GenerateReply (lit "hello") None;
        GetHomeTimeline 20]
  /\ last_mention_id (sched r'.2) = Some (IdInt 42).
Proof. repeat split. Qed.

Example monitor_job_interrupted :
  let r' :=
    (_monitor_and_reply_job ascii_lower no_settings interrupted_world idle) in
  r'.1 = Raised BaseException
  /\ map made (log r'.2)
     = [GetMentions None 10; GenerateReply (lit "hi there") None]
  /\ last_mention_id (sched r'.2) = Some (IdInt 42).
Proof. repeat split. Qed.

(** *** The post job *)

Lemma lex_opp c1 c2 : CompOpp (lex c1 c2) = lex (CompOpp c1) (CompOpp c2).
Proof. destruct c1; reflexivity. Qed.

Lemma time_compare_antisym a b : time_compare b a = CompOpp (time_compare a b).
Proof.
  unfold time_compare. rewrite !lex_opp, <- !Z.compare_antisym. reflexivity.
Qed.

(** [a <= b] fails exactly when [b < a]. *)
Lemma time_le_false_iff a b : time_le a b = false <-> time_lt b a = true.
Proof.
  unfold time_le, time_lt. rewrite (time_compare_antisym a b).
  destruct (time_compare a b); simpl; split; congruence.
Qed.

Lemma make_time_on_the_hour h t : make_time h 0 = Returned t -> t = on_the_hour h.
Proof.
  unfold make_time. destruct (_ && _); [|discriminate].
  intros [= <-]. reflexivity.
Qed.

(** For a time that a clock can show, the half-open window of the
    specification lies within the closed window that the job tests. *)
Lemma spec_window_within_tested_window start_hour end_hour t :
  (0 <= minute t)%Z -> (0 <= second t)%Z -> (0 <= microsecond t)%Z ->
  in_posting_window_spec start_hour end_hour t = true ->
  time_le (on_the_hour start_hour) t = true
  /\ time_le t (on_the_hour end_hour) = true.
Proof.
  intros Hm Hs Hu [H1 H2]%andb_true_iff.
  apply Z.leb_le in H1. apply Z.ltb_lt in H2.
  unfold time_le, time_compare, on_the_hour. simpl. split.
  - destruct (Z.compare_spec start_hour (hour t)); simpl; try reflexivity;
      [|exfalso; lia].
    destruct (minute t); [|reflexivity|exfalso; lia].
    destruct (second t); [|reflexivity|exfalso; lia].
    destruct (microsecond t); [reflexivity|reflexivity|exfalso; lia].
  - apply Z.compare_lt_iff in H2. rewrite H2. reflexivity.
Qed.

(** C5, as stated, fails: at 21:00:00 sharp, which the window [9, 21) of
    the specification excludes, the job with the default hours generates a
    tweet and submits it. *)
Lemma post_job_posts_at_end_hour :
  in_posting_window_spec 9 21 (now (calm_world (on_the_hour 21) 0)) = false
  /\ map made (log (_post_tweet_job no_settings (calm_world (on_the_hour 21) 0) idle).2)
     = [GenerateTweetIdeas 3; GenerateTweet None; PostTweet (lit "hi")]
  /\ posts_today
       (sched (_post_tweet_job no_settings (calm_world (on_the_hour 21) 0) idle).2)
     = 1%Z.
Proof. repeat split. Qed.

(** C5, amended. The job neither generates nor submits a post when the
    current time of day is before [start]:00:00 or after [end]:00:00, the
    configured hours: the firing then makes no call and changes nothing. The
    window is closed at both ends: when both hours are hours of a day (0 to
    23) and the daily limit is not reached, a firing at any time from
    [start]:00:00 to [end]:00:00, both included, is not skipped, its first
    call asks the generator for tweet ideas; in particular, when
    [0 <= start <= end <= 23] and the limit is not reached, a firing at
    exactly [end]:00:00 is not skipped. *)
Theorem post_job_closed_window (cfg : config) (w : world) (r : run) :
  let start_hour := config_get (posting_hours_start cfg) 9%Z in
  let end_hour := config_get (posting_hours_end cfg) 21%Z in
  let max_posts := config_get (posting_max_posts_per_day cfg) 10%Z in
  let asked := {| at_state := sched r; made := GenerateTweetIdeas 3 |} in
  (time_lt (now w) (on_the_hour start_hour) = true
   \/ time_lt (on_the_hour end_hour) (now w) = true ->
   _post_tweet_job cfg w r = (Returned tt, r))
  /\ ((0 <= start_hour <= 23)%Z -> (0 <= end_hour <= 23)%Z ->
      time_le (on_the_hour start_hour) (now w) = true ->
      time_le (now w) (on_the_hour end_hour) = true ->
      (posts_today (sched r) < max_posts)%Z ->
      exists later, log (_post_tweet_job cfg w r).2 = log r ++ asked :: later)
  /\ ((0 <= start_hour)%Z -> (start_hour <= end_hour)%Z -> (end_hour <= 23)%Z ->
      now w = on_the_hour end_hour ->
      (posts_today (sched r) < max_posts)%Z ->
      exists later, log (_post_tweet_job cfg w r).2 = log r ++ asked :: later).
Proof.
  intros start_hour end_hour max_posts asked.
  assert (Hin : (0 <= start_hour <= 23)%Z -> (0 <= end_hour <= 23)%Z ->
                time_le (on_the_hour start_hour) (now w) = true ->
                time_le (now w) (on_the_hour end_hour) = true ->
                (posts_today (sched r) < max_posts)%Z ->
                exists later,
                  log (_post_tweet_job cfg w r).2 = log r ++ asked :: later).
  { intros Hs He Hstart Hend Hbelow.
    assert (E1 : make_time start_hour 0 = Returned (on_the_hour start_hour)).
    { unfold make_time.
      replace ((0 <=? start_hour) && (start_hour <=? 23))%Z with true
        by (symmetry; apply andb_true_iff; split; apply Z.leb_le; lia).
      reflexivity. }
    assert (E2 : make_time end_hour 0 = Returned (on_the_hour end_hour)).
    { unfold make_time.
      replace ((0 <=? end_hour) && (end_hour <=? 23))%Z with true
        by (symmetry; apply andb_true_iff; split; apply Z.leb_le; lia).
      reflexivity. }
    unfold _post_tweet_job. rewrite try_except_run.
    fold start_hour end_hour max_posts.
    rewrite E1, bind_lift_returned, E2, bind_lift_returned.
    rewrite Hstart, Hend. change (negb (true && true)) with false. cbv iota.
    rewrite bind_read.
    replace (max_posts <=? posts_today (sched r))%Z with false
      by (symmetry; apply Z.leb_gt; exact Hbelow).
    unfold bind, read, write, perform, ret, random_choice. simpl.
    fold asked.
    destruct (generate_tweet_ideas w _ _) as [[|idea ideas]|e]; simpl;
      try (exists []; reflexivity);
      (destruct (generate_tweet w _ _) as [text|e]; simpl;
       [destruct (truthy text); simpl;
        [destruct (post_tweet w _ _) as [[p|]|e]; simpl|]|]);
      rewrite <- ?app_assoc; simpl; eexists; reflexivity. }
  split; [|split].
  - intros Hout.
    unfold _post_tweet_job, try_except. fold start_hour end_hour.
    destruct (make_time start_hour 0) as [start_time|e1] eqn:E1.
    2:{ rewrite bind_lift_raised. destruct e1; [reflexivity|].
        unfold make_time in E1. destruct (_ && _); discriminate. }
    rewrite bind_lift_returned.
    destruct (make_time end_hour 0) as [end_time|e2] eqn:E2.
    2:{ rewrite bind_lift_raised. destruct e2; [reflexivity|].
        unfold make_time in E2. destruct (_ && _); discriminate. }
    rewrite bind_lift_returned.
    apply make_time_on_the_hour in E1, E2. subst start_time end_time.
    replace (time_le (on_the_hour start_hour) (now w)
             && time_le (now w) (on_the_hour end_hour)) with false.
    + reflexivity.
    + symmetry. apply andb_false_iff.
      destruct Hout as [H|H]; [left|right]; apply time_le_false_iff; exact H.
  - exact Hin.
  - intros H0 Hle H23 Hnow Hbelow.
    apply Hin; [lia|lia| | |exact Hbelow]; rewrite Hnow.
    + unfold time_le, time_compare, on_the_hour. simpl.
      destruct (Z.compare_spec start_hour end_hour); try reflexivity.
      exfalso; lia.
    + unfold time_le, time_compare, on_the_hour. simpl.
      rewrite Z.compare_refl. reflexivity.
Qed.

Lemma post_job_closed_window_witness :
  _post_tweet_job no_settings
    (calm_world {| hour := 21; minute := 0; second := 0; microsecond := 1 |} 0)
    idle
  = (Returned tt, idle)
  /\ (exists later,
        log (_post_tweet_job no_settings (calm_world (on_the_hour 9) 0) idle).2
        = log idle
          ++ {| at_state := sched idle; made := GenerateTweetIdeas 3 |}
             :: later)
  /\ (exists later,
        log (_post_tweet_job no_settings (calm_world (on_the_hour 21) 0) idle).2
        = log idle
          ++ {| at_state := sched idle; made := GenerateTweetIdeas 3 |}
             :: later).
Proof.
  split; [|split].
  - apply (proj1 (post_job_closed_window no_settings
                    (calm_world
                       {| hour := 21; minute := 0; second := 0;
                          microsecond := 1 |} 0)
                    idle)).
    right. reflexivity.
  - apply (proj1 (proj2 (post_job_closed_window no_settings
                           (calm_world (on_the_hour 9) 0) idle))).
    + simpl. lia.
    + simpl. lia.
    + reflexivity.
    + reflexivity.
    + simpl. lia.
  - apply (proj2 (proj2 (post_job_closed_window no_settings
                           (calm_world (on_the_hour 21) 0) idle))).
    + simpl. lia.
    + simpl. lia.
    + simpl. lia.
    + reflexivity.
    + simpl. lia.
Defined.

(** With an hour that is no hour of a day, such as an end hour of 24,
    [time(hour, 0)] raises inside the job, which then makes no call and
    changes nothing, at any time of day. *)
Lemma post_job_skips_on_invalid_hours (cfg : config) (w : world) (r : run) :
  let start_hour := config_get (posting_hours_start cfg) 9%Z in
  let end_hour := config_get (posting_hours_end cfg) 21%Z in
  ~ (0 <= start_hour <= 23)%Z \/ ~ (0 <= end_hour <= 23)%Z ->
  _post_tweet_job cfg w r = (Returned tt, r).
Proof.
  intros start_hour end_hour Hbad.
  assert (Hraise : forall h, ~ (0 <= h <= 23)%Z ->
                             make_time h 0 = Raised Exception).
  { intros h Hh. unfold make_time.
    destruct (Z.leb_spec 0 h); [|reflexivity].
    destruct (Z.leb_spec h 23); [|reflexivity].
    exfalso. apply Hh. lia. }
  unfold _post_tweet_job, try_except. fold start_hour end_hour.
  destruct (make_time start_hour 0) as [start_time|e1] eqn:E1.
  2:{ rewrite bind_lift_raised. destruct e1; [reflexivity|].
      unfold make_time in E1. destruct (_ && _); discriminate. }
  rewrite bind_lift_returned.
  destruct Hbad as [H|H]; [rewrite (Hraise _ H) in E1; discriminate|].
  rewrite (Hraise _ H), bind_lift_raised. reflexivity.
Qed.

(** With hours that wrap around midnight, 22 to 6, no time of day lies in
    the window that the job tests: a firing at exactly 06:00:00, the end
    hour, is skipped like every other. *)
Example post_job_skips_when_hours_wrap :
  _post_tweet_job night_shift (calm_world (on_the_hour 6) 0) idle
  = (Returned tt, idle).
Proof. reflexivity. Qed.

(** C6. When the current time is within the posting hours and [posts_today]
    has reached [max_posts_per_day], the firing makes no call at all, to the
    generator or to the platform, and leaves the scheduler, [posts_today]
    and [last_mention_id] included, as it was. *)
Theorem post_job_skips_at_daily_limit (cfg : config) (w : world) (r : run) :
  let start_hour := config_get (posting_hours_start cfg) 9%Z in
  let end_hour := config_get (posting_hours_end cfg) 21%Z in
  let max_posts := config_get (posting_max_posts_per_day cfg) 10%Z in
  time_le (on_the_hour start_hour) (now w) = true ->
  time_le (now w) (on_the_hour end_hour) = true ->
  (max_posts <= posts_today (sched r))%Z ->
  _post_tweet_job cfg w r = (Returned tt, r).
Proof.
  intros start_hour end_hour max_posts Hstart Hend Hlimit.
  unfold _post_tweet_job, try_except. fold start_hour end_hour max_posts.
  destruct (make_time start_hour 0) as [start_time|e1] eqn:E1.
  2:{ rewrite bind_lift_raised. destruct e1; [reflexivity|].
      unfold make_time in E1. destruct (_ && _); discriminate. }
  rewrite bind_lift_returned.
  destruct (make_time end_hour 0) as [end_time|e2] eqn:E2.
  2:{ rewrite bind_lift_raised. destruct e2; [reflexivity|].
      unfold make_time in E2. destruct (_ && _); discriminate. }
  rewrite bind_lift_returned.
  apply make_time_on_the_hour in E1, E2. subst start_time end_time.
  rewrite Hstart, Hend. change (negb (true && true)) with false. cbv iota.
  rewrite bind_read.
  replace (max_posts <=? posts_today (sched r))%Z with true
    by (symmetry; apply Z.leb_le; exact Hlimit).
  reflexivity.
Qed.

Lemma post_job_skips_at_daily_limit_witness :
  _post_tweet_job no_settings (calm_world (on_the_hour 12) 0)
    {| sched := set_posts_today 10 (sched idle); log := [] |}
  = (Returned tt, {| sched := set_posts_today 10 (sched idle); log := [] |}).
Proof.
  apply (post_job_skips_at_daily_limit no_settings
           (calm_world (on_the_hour 12) 0)
           {| sched := set_posts_today 10 (sched idle); log := [] |}).
  - reflexivity.
  - reflexivity.
  - simpl. lia.
Defined.

(** *** The posting interval *)

(** The float literals of the source are the doubles nearest to the decimal
    fractions they are written as. *)
Lemma float_literals :
  f0_2 = truediv 2 10 /\ f0_5 = truediv 5 10
  /\ f0_8 = truediv 8 10 /\ f1_2 = truediv 12 10.
Proof. repeat split. Qed.






(** * Further properties of the code *)

(** ** Cleaning and the reply gate *)

Lemma rstrip_by_fixed_last p s c :
  rstrip_by p (s ++ [c]) = s ++ [c] -> p c = false.
Proof.
  induction s as [|a s IH]; simpl.
  - destruct (p c); [discriminate|reflexivity].
  - destruct (rstrip_by p (s ++ [c])) as [|x r] eqn:E.
    + intros H. apply (f_equal length) in H.
      destruct (p a); simpl in H; rewrite length_app in H; simpl in H; lia.
    + intros [= H]. apply IH. exact H.
Qed.

(** A stripped text is left alone by both halves of the stripping. *)
Lemma strip_by_fixed p s :
  lstrip_by p (strip_by p s) = strip_by p s
  /\ rstrip_by p (strip_by p s) = strip_by p s.
Proof.
  unfold strip_by. split.
  - apply lstrip_by_rstrip_by, lstrip_by_idem.
  - apply rstrip_by_idem.
Qed.

(** The text that [_clean_tweet] returns neither starts nor ends with
    whitespace. *)
Theorem clean_tweet_trimmed (lower : str -> str) (text : str) :
  (forall c rest, _clean_tweet lower text = c :: rest -> isspace c = false)
  /\ (forall init c,
        _clean_tweet lower text = init ++ [c] -> isspace c = false).
Proof.
  unfold _clean_tweet, strip.
  set (t := if 280 <? _ then _ else _).
  destruct (strip_by_fixed isspace t) as [Hl Hr].
  split.
  - intros c rest E. rewrite E in Hl.
    exact (lstrip_by_fixed_head isspace c rest Hl).
  - intros init c E. rewrite E in Hr.
    exact (rstrip_by_fixed_last isspace init c Hr).
Qed.

Lemma clean_tweet_trimmed_witness : isspace 71%N = false.
Proof.
  apply (proj1 (clean_tweet_trimmed ascii_lower (lit " Great ")) 71%N
           (lit "reat")).
  vm_compute. reflexivity.
Defined.

(** Raising [reply_probability] never turns an accepted tweet into a
    declined one. *)
Theorem should_reply_monotone (lower : str -> str) (cfg cfg' : config)
    (p p' random : Q) (tw : tweet) :
  replies_reply_probability cfg = Some p ->
  replies_reply_probability cfg' = Some p' ->
  replies_keywords_to_monitor cfg' = replies_keywords_to_monitor cfg ->
  (p <= p')%Q ->
  should_reply_to_tweet lower cfg random tw = true ->
  should_reply_to_tweet lower cfg' random tw = true.
Proof.
  intros Hp Hp' Hkw Hle. unfold should_reply_to_tweet.
  rewrite Hp, Hp', Hkw. simpl.
  destruct (Qle_bool random p) eqn:E; [|discriminate].
  apply Qle_bool_iff in E.
  assert (E' : Qle_bool random p' = true).
  { apply Qle_bool_iff. eapply Qle_trans; eassumption. }
  rewrite E'. trivial.
Qed.

Lemma should_reply_monotone_witness :
  should_reply_to_tweet ascii_lower reply_on_ai (1 # 2)%Q
    {| tw_id := IdStr (lit "3"); tw_text := Some (lit "I love AI");
       tw_author_id := None; tw_author_screen_name := None |} = true.
Proof.
  apply (should_reply_monotone ascii_lower often_reply_on_ai reply_on_ai
           (3 # 4)%Q 1%Q).
  - reflexivity.
  - reflexivity.
  - reflexivity.
  - discriminate.
  - vm_compute. reflexivity.
Defined.

(** With a probability of at least 1, a draw below 1 always passes the
    gate: the tweet is accepted exactly when no keyword is configured or
    its text contains, whatever the case, one of the keywords. *)
Theorem should_reply_certain (lower : str -> str) (cfg : config)
    (p random : Q) (tw : tweet) :
  replies_reply_probability cfg = Some p ->
  (1 <= p)%Q ->
  (random < 1)%Q ->
  should_reply_to_tweet lower cfg random tw = true
  <-> (config_get (replies_keywords_to_monitor cfg) [] = []
       \/ exists keyword,
            keyword ∈ config_get (replies_keywords_to_monitor cfg) []
            /\ contains (lower (dict_get (tw_text tw) [])) (lower keyword)
               = true).
Proof.
  intros Hp Hone Hdraw. unfold should_reply_to_tweet. rewrite Hp. simpl.
  assert (E : Qle_bool random p = true).
  { apply Qle_bool_iff. apply Qlt_le_weak. eapply Qlt_le_trans; eassumption. }
  rewrite E. simpl.
  destruct (config_get (replies_keywords_to_monitor cfg) []) as [|k ks] eqn:Ek.
  - split; [left; reflexivity|reflexivity].
  - rewrite existsb_exists. split.
    + intros (keyword & Hin & Hc). right. exists keyword.
      split; [apply list_elem_of_In; exact Hin|exact Hc].
    + intros [H|(keyword & Hin & Hc)]; [discriminate|].
      exists keyword. split; [apply list_elem_of_In; exact Hin|exact Hc].
Qed.

Lemma should_reply_certain_witness :
  should_reply_to_tweet ascii_lower reply_on_ai (1 # 2)%Q hello_tweet = true
  <-> (config_get (replies_keywords_to_monitor reply_on_ai) [] = []
       \/ exists keyword,
            keyword ∈ config_get (replies_keywords_to_monitor reply_on_ai) []
            /\ contains (ascii_lower (dict_get (tw_text hello_tweet) []))
                 (ascii_lower keyword) = true).
Proof.
  apply (should_reply_certain ascii_lower reply_on_ai 1%Q (1 # 2)%Q
           hello_tweet).
  - reflexivity.
  - discriminate.
  - reflexivity.
Defined.

(** ** The analysis *)

(** The prompt embeds at most the first 8000 characters of the combined
    samples: its length is that of the fixed text around them plus the
    length of the samples, capped at 8000. *)
Theorem analysis_prompt_length (combined_text : str) :
  length (analysis_prompt combined_text)
  = 1084 + Nat.min (Z.to_nat 8000) (length combined_text).
Proof.
  assert (E : exists head tail,
             length head + length tail = 1084
             /\ analysis_prompt combined_text
                = head ++ take (Z.to_nat 8000) combined_text ++ tail).
  { exists (take 477 (analysis_prompt [])), (drop 477 (analysis_prompt [])).
    split; [vm_compute; reflexivity|].
    unfold analysis_prompt at 1.
    generalize (take (Z.to_nat 8000) combined_text). intros embedded.
    vm_compute. reflexivity. }
  destruct E as (head & tail & Hlen & ->).
  rewrite !length_app, length_take. lia.
Qed.

(** Samples after the tenth do not reach the language model: the prompts
    sent for ten samples and for the same ten followed by others are the
    same. *)
Theorem analyze_samples_prompt_first_ten
    (isalnum : char -> bool) (json_loads : str -> option value)
    (analyze : str -> outcome str) (self : analyzer)
    (first others : list str) :
  length first = 10 ->
  llm_calls (analyze_samples isalnum json_loads analyze self (first ++ others))
  = llm_calls (analyze_samples isalnum json_loads analyze self first).
Proof.
  intros Hlen.
  assert (Htake : take 10 (first ++ others) = take 10 first).
  { rewrite take_app_le by lia. reflexivity. }
  destruct first as [|s ss]; [discriminate|].
  unfold analyze_samples. simpl app. cbv iota.
  change (s :: ss ++ others) with ((s :: ss) ++ others).
  rewrite Htake.
  destruct (analyze _) as [response|[|]]; [|reflexivity|reflexivity].
  destruct (falsy _); [reflexivity|].
  destruct (_extract_json _ _); cbn [llm_calls]; reflexivity.
Qed.

Lemma analyze_samples_prompt_first_ten_witness :
  llm_calls
    (analyze_samples ascii_isalnum no_json failing_llm fresh_analyzer
       (replicate 10 (lit "hi") ++ [lit "never sent"]))
  = llm_calls
      (analyze_samples ascii_isalnum no_json failing_llm fresh_analyzer
         (replicate 10 (lit "hi"))).
Proof.
  apply (analyze_samples_prompt_first_ten ascii_isalnum no_json failing_llm
           fresh_analyzer (replicate 10 (lit "hi")) [lit "never sent"]).
  reflexivity.
Defined.

(** *** The measured metrics *)

Lemma quantitative_keys (isalnum : char -> bool) (samples : list str) :
  Forall (fun key => is_Some (_quantitative_analysis isalnum samples !! key))
    metric_keys.
Proof.
  unfold metric_keys. repeat constructor; key_lookup; eexists; reflexivity.
Qed.

(** When the answer of the language model holds a JSON object, the profile
    returned has the six measured metrics, whatever the object says for
    their keys, and the entries of the object for every other key. *)
Theorem analyze_samples_metrics_authoritative
    (isalnum : char -> bool) (json_loads : str -> option value)
    (analyze : str -> outcome str) (self : analyzer)
    (samples : list str) (response : str) (d : gmap str value) :
  samples <> [] ->
  analyze
    (analysis_prompt
       (join (nl ++ nl ++ lit "---" ++ nl ++ nl) (take 10 samples)))
  = Returned response ->
  _extract_json json_loads response = VDict d ->
  d <> ∅ ->
  exists profile,
    result (analyze_samples isalnum json_loads analyze self samples)
    = Returned profile
    /\ Forall
         (fun key =>
            is_Some (profile !! key)
            /\ profile !! key = _quantitative_analysis isalnum samples !! key)
         metric_keys
    /\ forall key, key ∉ metric_keys -> profile !! key = d !! key.
Proof.
  intros Hne Hcall Hjson Hd.
  exists (_quantitative_analysis isalnum samples ∪ d).
  split.
  { apply (analyze_samples_success_stores isalnum json_loads analyze self
             samples response d Hne Hcall Hjson Hd). }
  split.
  - eapply Forall_impl; [apply (quantitative_keys isalnum samples)|].
    intros key [v Hv]. simpl.
    rewrite (lookup_union_Some_l _ _ _ _ Hv), Hv. split; [eexists|]; reflexivity.
  - intros key Hkey. apply lookup_union_r.
    destruct (_quantitative_analysis isalnum samples !! key) as [v|] eqn:E;
      [|reflexivity].
    exfalso. apply Hkey. revert E. unfold _quantitative_analysis.
    rewrite !lookup_list_to_map_cons.
    unfold metric_keys.
    repeat (case_bool_decide; [subst key; intros _; set_solver|]).
    rewrite list_to_map_nil, lookup_empty. discriminate.
Qed.

Lemma analyze_samples_metrics_authoritative_witness :
  exists profile,
    result (analyze_samples ascii_isalnum tone_json terse_llm fresh_analyzer
              [lit "hi"])
    = Returned profile
    /\ Forall
         (fun key =>
            is_Some (profile !! key)
            /\ profile !! key
               = _quantitative_analysis ascii_isalnum [lit "hi"] !! key)
         metric_keys
    /\ forall key,
         key ∉ metric_keys ->
         profile !! key
         = ({[ lit "tone" := VStr (lit "dry");
               lit "emoji_frequency" := VInt 99 ]} : gmap str value) !! key.
Proof.
  apply (analyze_samples_metrics_authoritative ascii_isalnum tone_json
           terse_llm fresh_analyzer [lit "hi"] (lit "{}")).
  - discriminate.
  - reflexivity.
  - vm_compute. reflexivity.
  - intros E. apply (f_equal (fun m => m !! lit "tone")) in E.
    vm_compute in E. discriminate.
Defined.

(** A quotient of two natural numbers is never below zero. *)
Lemma binary_round_aux_unsigned mx ex lx :
  unsigned (binary_round_aux 53 1024 false mx ex lx).
Proof.
  unfold binary_round_aux.
  destruct (shr_fexp 53 1024 mx ex lx) as [mrs' e'].
  destruct (shr_fexp 53 1024 _ e' loc_Exact) as [mrs'' e''].
  destruct (shr_m mrs''); simpl; [reflexivity| |exact I].
  destruct (_ <=? _)%Z; reflexivity.
Qed.

Lemma float_of_nat_unsigned (n : nat) : unsigned (float_of_int (Z.of_nat n)).
Proof.
  unfold float_of_int, binary_normalize.
  destruct (Z.of_nat n) eqn:E; [reflexivity| |lia].
  unfold binary_round. destruct (shl_align _ _ _).
  apply binary_round_aux_unsigned.
Qed.

Lemma truediv_unsigned (a b : nat) :
  unsigned (truediv (Z.of_nat a) (Z.of_nat b)).
Proof.
  unfold truediv.
  pose proof (float_of_nat_unsigned a) as Ha.
  pose proof (float_of_nat_unsigned b) as Hb.
  destruct (float_of_int (Z.of_nat a)) as [sa|sa| |sa ma ea],
           (float_of_int (Z.of_nat b)) as [sb|sb| |sb mb eb];
    simpl in *; subst; try reflexivity; try exact I.
  destruct (SFdiv_core_binary _ _ _ _ _ _) as [[mz ez] lz].
  apply binary_round_aux_unsigned.
Qed.

Lemma unsigned_not_negative (f : float) : unsigned f -> float_lt f f0_0 = false.
Proof.
  destruct f as [s|s| |s m e]; simpl; intros H; subst; reflexivity.
Qed.

(** For every non-empty batch of samples, each of the six metrics is a
    float, and none is below zero. *)
Theorem quantitative_metrics_not_negative
    (isalnum : char -> bool) (samples : list str) :
  samples <> [] ->
  Forall
    (fun key =>
       exists f,
         _quantitative_analysis isalnum samples !! key = Some (VFloat f)
         /\ float_lt f f0_0 = false)
    metric_keys.
Proof.
  intros Hne. destruct samples as [|s ss]; [done|].
  assert (Havg : forall text,
            float_lt (_calculate_avg_sentence_length text) f0_0 = false).
  { intros text. unfold _calculate_avg_sentence_length.
    destruct (map strip _); [reflexivity|].
    apply unsigned_not_negative, truediv_unsigned. }
  assert (Hword : forall text,
            float_lt (_calculate_avg_word_length isalnum text) f0_0 = false).
  { intros text. unfold _calculate_avg_word_length.
    destruct (runs _ _); [reflexivity|].
    apply unsigned_not_negative, truediv_unsigned. }
  unfold metric_keys.
  repeat constructor; eexists; (split; [key_lookup|]);
    first [apply Havg | apply Hword
          | apply unsigned_not_negative, truediv_unsigned].
Qed.

Lemma quantitative_metrics_not_negative_witness :
  Forall
    (fun key =>
       exists f,
         _quantitative_analysis ascii_isalnum [lit "so good! #ai"; lit "hm"]
           !! key = Some (VFloat f)
         /\ float_lt f f0_0 = false)
    metric_keys.
Proof.
  apply (quantitative_metrics_not_negative ascii_isalnum
           [lit "so good! #ai"; lit "hm"]).
  discriminate.
Defined.

(** There are never more hashtags counted than there are hash signs. *)
Theorem count_hashtags_le (isalnum : char -> bool) (text : str) :
  forall in_tag, count_hashtags isalnum in_tag text <= count 35%N text.
Proof.
  unfold count, str, char in *.
  induction text as [|c text IH]; intros in_tag; [simpl; lia|].
  rewrite filter_cons. cbn [count_hashtags].
  destruct (in_tag && is_word isalnum c).
  - specialize (IH true). case_decide; simpl; lia.
  - destruct (N.eqb_spec c 35) as [->|Hc].
    + rewrite decide_True by reflexivity. simpl length.
      destruct text as [|c' text']; [lia|].
      destruct (is_word isalnum c').
      * specialize (IH true). lia.
      * specialize (IH false). lia.
    + rewrite decide_False by exact Hc. apply IH.
Qed.

(** *** Finding the JSON object *)

Lemma match_object_sound text :
  forall inner m,
    match_object inner text = Some m ->
    exists body post, m = body ++ [125%N] /\ text = m ++ post.
Proof.
  induction text as [|c text IH]; intros inner m; simpl; [discriminate|].
  destruct (N.eqb_spec c 123) as [->|Hopen].
  - destruct inner; [discriminate|].
    intros (m' & Hm' & ->)%fmap_Some.
    destruct (IH _ _ Hm') as (body & post & -> & ->).
    exists (123%N :: body), post. split; reflexivity.
  - destruct (N.eqb_spec c 125) as [->|Hclose].
    + destruct inner.
      * intros (m' & Hm' & ->)%fmap_Some.
        destruct (IH _ _ Hm') as (body & post & -> & ->).
        exists (125%N :: body), post. split; reflexivity.
      * intros [= <-]. exists [], text. split; reflexivity.
    + intros (m' & Hm' & ->)%fmap_Some.
      destruct (IH _ _ Hm') as (body & post & -> & ->).
      exists (c :: body), post. split; reflexivity.
Qed.

(** What [search_object] finds is a piece of the text that starts with an
    opening brace and ends with a closing brace. *)
Theorem search_object_sound (text m : str) :
  search_object text = Some m ->
  exists before body after,
    m = [123%N] ++ body ++ [125%N] /\ text = before ++ m ++ after.
Proof.
  induction text as [|c text IH]; simpl; [discriminate|].
  destruct (N.eqb_spec c 123) as [->|Hopen].
  - destruct (match_object false text) as [m'|] eqn:E.
    + intros [= <-].
      destruct (match_object_sound _ _ _ E) as (body & post & -> & ->).
      exists [], body, post. split; reflexivity.
    + intros H. destruct (IH H) as (before & body & post & -> & ->).
      exists (123%N :: before), body, post. split; reflexivity.
  - intros H. destruct (IH H) as (before & body & post & -> & ->).
    exists (c :: before), body, post. split; reflexivity.
Qed.

Lemma search_object_sound_witness :
  exists before body after,
    lit "{a}" = [123%N] ++ body ++ [125%N]
    /\ lit "Sure: {a} and {b}" = before ++ lit "{a}" ++ after.
Proof.
  apply (search_object_sound (lit "Sure: {a} and {b}") (lit "{a}")).
  vm_compute. reflexivity.
Defined.

Lemma match_object_flat (body suffix : str) :
  Forall (fun c => c <> 123%N /\ c <> 125%N) body ->
  match_object false (body ++ [125%N] ++ suffix) = Some (body ++ [125%N]).
Proof.
  induction 1 as [|c body [Ho Hc] _ IH]; [reflexivity|].
  simpl in *.
  destruct (N.eqb_spec c 123); [contradiction|].
  destruct (N.eqb_spec c 125); [contradiction|].
  rewrite IH. reflexivity.
Qed.

Lemma search_object_skip (prefix rest : str) :
  Forall (fun c => c <> 123%N) prefix ->
  search_object (prefix ++ rest) = search_object rest.
Proof.
  induction 1 as [|c prefix Hc _ IH]; [reflexivity|].
  simpl. destruct (N.eqb_spec c 123); [contradiction|]. exact IH.
Qed.

(** An object without nested braces is found inside any prose that has no
    opening brace before it, and when it parses, its value is what
    [_extract_json] returns, whatever follows it. *)
Theorem extract_json_wrapped (json_loads : str -> option value)
    (prefix body suffix : str) (v : value) :
  Forall (fun c => c <> 123%N) prefix ->
  Forall (fun c => c <> 123%N /\ c <> 125%N) body ->
  json_loads ([123%N] ++ body ++ [125%N]) = Some v ->
  _extract_json json_loads (prefix ++ ([123%N] ++ body ++ [125%N]) ++ suffix)
  = v.
Proof.
  intros Hprefix Hbody Hparse. unfold _extract_json.
  rewrite (search_object_skip _ _ Hprefix).
  assert (E : search_object (([123%N] ++ body ++ [125%N]) ++ suffix)
              = Some ([123%N] ++ body ++ [125%N])).
  { simpl. rewrite <- app_assoc.
    rewrite (match_object_flat body suffix Hbody). reflexivity. }
  rewrite E, Hparse. reflexivity.
Qed.

Lemma extract_json_wrapped_witness :
  _extract_json
    (fun s => if bool_decide (s = lit "{1}") then Some (VInt 1) else None)
    (lit "Here it is: " ++ ([123%N] ++ lit "1" ++ [125%N]) ++ lit " {bye")
  = VInt 1.
Proof.
  apply (extract_json_wrapped
           (fun s => if bool_decide (s = lit "{1}") then Some (VInt 1)
                     else None)
           (lit "Here it is: ") (lit "1") (lit " {bye") (VInt 1)).
  - repeat constructor; discriminate.
  - repeat constructor; discriminate.
  - reflexivity.
Defined.

(** ** The style prompt *)



(** The entries of a default profile that [get_style_prompt] reads. *)
Lemma default_profile_prompt_entries (isalnum : char -> bool) (samples : list str) :
  samples <> [] ->
  let profile := _create_default_profile isalnum samples in
  let total_text := join (lit " ") samples in
  let n := Z.of_nat (length samples) in
  profile !! lit "tone" = Some (VStr (lit "neutral"))
  /\ profile !! lit "voice" = Some (VStr (lit "conversational"))
  /\ profile !! lit "vocabulary_level" = Some (VStr (lit "moderate"))
  /\ profile !! lit "personality_traits"
     = Some (VList [VStr (lit "informative")])
  /\ profile !! lit "common_phrases" = Some (VList [])
  /\ profile !! lit "avg_sentence_length"
     = Some (VFloat (_calculate_avg_sentence_length total_text))
  /\ profile !! lit "emoji_frequency"
     = Some (VFloat
               (truediv
                  (Z.of_nat
                     (length (filter (fun c => is_emoji c = true) total_text)))
                  n))
  /\ profile !! lit "hashtag_frequency"
     = Some (VFloat
               (truediv (Z.of_nat (count_hashtags isalnum false total_text)) n)).
Proof.
  intros Hne profile total_text n.
  destruct samples as [|s ss]; [done|].
  unfold profile, _create_default_profile.
  repeat split; key_lookup.
Qed.

(** The style prompt of a default profile: the four fixed clauses, then the
    advice on the length of sentences, on emojis and on hashtags that the
    measured metrics call for; never a clause of common phrases. *)
Theorem style_prompt_of_default_profile
    (isalnum : char -> bool) (py_str : value -> str)
    (dict_keys : gmap str value -> list str) (samples : list str) :
  samples <> [] ->
  let total_text := join (lit " ") samples in
  let n := Z.of_nat (length samples) in
  let avg := _calculate_avg_sentence_length total_text in
  let emoji_frequency :=
    truediv (Z.of_nat (length (filter (fun c => is_emoji c = true) total_text)))
      n in
  let hashtag_frequency :=
    truediv (Z.of_nat (count_hashtags isalnum false total_text)) n in
  get_style_prompt py_str dict_keys
    {| style_profile := Some (_create_default_profile isalnum samples) |}
  = Returned
      (join (lit ". ")
         ([lit "Tone: neutral"; lit "Voice: conversational";
           lit "Vocabulary: moderate"; lit "Personality: informative"]
          ++ (if float_lt avg (float_of_int 10)
              then [lit "Use short, punchy sentences"]
              else if float_gt avg (float_of_int 20)
                   then [lit "Use longer, more detailed sentences"]
                   else [])
          ++ (if float_gt emoji_frequency f0_5
              then [lit "Include emojis occasionally"] else [])
          ++ (if float_gt hashtag_frequency f0_2
              then [lit "Use relevant hashtags"] else []))
         ++ lit ".").
Proof.
  intros Hne total_text n avg emoji_frequency hashtag_frequency.
  destruct (default_profile_prompt_entries isalnum samples Hne)
    as (Htone & Hvoice & Hvocab & Htraits & Hphrases & Havg & Hemoji & Hhash).
  fold total_text n in Havg, Hemoji, Hhash.
  fold avg in Havg. fold emoji_frequency in Hemoji.
  fold hashtag_frequency in Hhash.
  clearbody avg emoji_frequency hashtag_frequency. clear total_text n.
  assert (Hfull : _create_default_profile isalnum samples <> ∅).
  { intros E. rewrite E, lookup_empty in Htone. discriminate. }
  unfold get_style_prompt. cbn [style_profile].
  rewrite (bool_decide_eq_false_2 _ Hfull).
  unfold listed_clause.
  rewrite Htone, Hvoice, Hvocab, Htraits, Hphrases, Havg, Hemoji, Hhash.
  cbn [dict_get lt_int gt_int gt_float].
  generalize (float_lt avg (float_of_int 10)) as short.
  generalize (float_gt avg (float_of_int 20)) as long.
  generalize (float_gt emoji_frequency f0_5) as emojis.
  generalize (float_gt hashtag_frequency f0_2) as hashtags.
  clear. intros [] [] [] []; vm_compute; reflexivity.
Qed.

Lemma style_prompt_of_default_profile_witness :
  get_style_prompt (fun _ => []) (fun _ => [])
    {| style_profile :=
         Some (_create_default_profile ascii_isalnum
                 [lit "so good! #ai"; lit "hm"]) |}
  = Returned
      (lit "Tone: neutral. Voice: conversational. Vocabulary: moderate. Personality: informative. Use short, punchy sentences. Use relevant hashtags.").
Proof.
  pose proof (style_prompt_of_default_profile ascii_isalnum (fun _ => [])
                (fun _ => []) [lit "so good! #ai"; lit "hm"]) as H.
  assert (Hne : [lit "so good! #ai"; lit "hm"] <> []) by discriminate.
  rewrite (H Hne). vm_compute. reflexivity.
Defined.

(** ** Generated text *)

Lemma fallback_tweet_length (choice : nat) :
  length (Generator._fallback_tweet choice) <= 280
  /\ Generator._fallback_tweet choice ∈ tweet_fallbacks.
Proof.
  unfold Generator._fallback_tweet.
  pose proof (Nat.mod_upper_bound choice 5) as H.
  destruct (choice mod 5) as [|[|[|[|[|i]]]]]; [| | | | |lia];
    (split; [vm_compute; lia|unfold tweet_fallbacks; cbn [nth]; set_solver]).
Qed.

Lemma fallback_reply_length (choice : nat) :
  length (Generator._fallback_reply choice) <= 280
  /\ Generator._fallback_reply choice ∈ reply_fallbacks.
Proof.
  unfold Generator._fallback_reply.
  pose proof (Nat.mod_upper_bound choice 5) as H.
  destruct (choice mod 5) as [|[|[|[|[|i]]]]]; [| | | | |lia];
    (split; [vm_compute; lia|unfold reply_fallbacks; cbn [nth]; set_solver]).
Qed.

(** The request shared by the two generators: the text returned is a
    cleaned answer or the fallback. *)
Lemma request_text_cases lower settings generate prompt fallback text :
  gen_result (Generator.request_text lower settings generate prompt fallback)
  = Returned text ->
  (exists answer, text = _clean_tweet lower answer) \/ text = fallback.
Proof.
  unfold Generator.request_text.
  destruct (generate _ _ _) as [answer|[|]]; simpl; intros [= <-].
  - left. exists answer. reflexivity.
  - right. reflexivity.
Qed.

Lemma request_text_length lower settings generate prompt fallback text :
  length fallback <= 280 ->
  gen_result (Generator.request_text lower settings generate prompt fallback)
  = Returned text ->
  length text <= 280.
Proof.
  intros Hfb H.
  destruct (request_text_cases _ _ _ _ _ _ H) as [(answer & ->)| ->];
    [|exact Hfb].
  unfold _clean_tweet. apply strip_truncated_length.
Qed.

Lemma generate_tweet_length lower py_str dict_keys settings style_analyzer
    generate choice topic context text :
  gen_result
    (Generator.generate_tweet lower py_str dict_keys settings style_analyzer
       generate choice topic context) = Returned text ->
  length text <= 280.
Proof.
  unfold Generator.generate_tweet.
  destruct (Generator.tweet_prompt _ _ _ _ _ _) as [prompt|e];
    [|discriminate].
  apply request_text_length, fallback_tweet_length.
Qed.

Lemma generate_reply_length lower py_str dict_keys settings style_analyzer
    generate choice original author text :
  gen_result
    (Generator.generate_reply lower py_str dict_keys settings style_analyzer
       generate choice original author) = Returned text ->
  length text <= 280.
Proof.
  unfold Generator.generate_reply.
  destruct (Generator.reply_prompt _ _ _ _ _) as [prompt|e];
    [|discriminate].
  apply request_text_length, fallback_reply_length.
Qed.

(** Whatever the language model answers, a text returned by
    [generate_tweet] or by [generate_reply] has at most 280 characters. *)
Theorem generated_text_within_limit
    (lower : str -> str) (py_str : value -> str)
    (dict_keys : gmap str value -> list str)
    (settings : generation_settings) (style_analyzer : analyzer)
    (generate : str -> float -> Z -> outcome str) (choice : nat)
    (topic context : option str) (original : str) (author : option str)
    (text : str) :
  (gen_result
     (Generator.generate_tweet lower py_str dict_keys settings style_analyzer
        generate choice topic context) = Returned text
   \/ gen_result
        (Generator.generate_reply lower py_str dict_keys settings
           style_analyzer generate choice original author) = Returned text) ->
  length text <= 280.
Proof.
  intros [H|H].
  - exact (generate_tweet_length _ _ _ _ _ _ _ _ _ _ H).
  - exact (generate_reply_length _ _ _ _ _ _ _ _ _ _ H).
Qed.

Lemma generated_text_within_limit_witness :
  length (lit "Great news today! #ai") <= 280.
Proof.
  apply (generated_text_within_limit ascii_lower (fun _ => []) (fun _ => [])
           plain_generation fresh_analyzer
           (fun _ _ _ => Returned (lit "Tweet: Great news today! #ai")) 0
           None None [] None (lit "Great news today! #ai")).
  left. vm_compute. reflexivity.
Defined.

(** Once a request has gone to the language model, no [Exception] comes
    out of [generate_tweet]; when the model client raised one, the text
    returned is one of the five fallback sentences. *)
Theorem generate_tweet_falls_back
    (lower : str -> str) (py_str : value -> str)
    (dict_keys : gmap str value -> list str)
    (settings : generation_settings) (style_analyzer : analyzer)
    (generate : str -> float -> Z -> outcome str) (choice : nat)
    (topic context : option str) (request : llm_request) :
  let run :=
    Generator.generate_tweet lower py_str dict_keys settings style_analyzer
      generate choice topic context in
  gen_requests run = [request] ->
  req_max_tokens request = 100%Z
  /\ gen_result run <> Raised Exception
  /\ (generate (req_prompt request) (req_temperature request) 100%Z
      = Raised Exception ->
      exists text, gen_result run = Returned text /\ text ∈ tweet_fallbacks).
Proof.
  intros run. unfold run, Generator.generate_tweet.
  destruct (Generator.tweet_prompt _ _ _ _ _ _) as [prompt|e];
    [|discriminate].
  unfold Generator.request_text.
  destruct (generate prompt _ 100%Z) as [answer|[|]] eqn:E; simpl;
    intros [= <-]; simpl; repeat split; try discriminate;
    rewrite E; try discriminate.
  intros _. eexists. split; [reflexivity|apply fallback_tweet_length].
Qed.

Lemma generate_tweet_falls_back_witness :
  exists text,
    gen_result
      (Generator.generate_tweet ascii_lower (fun _ => []) (fun _ => [])
         plain_generation fresh_analyzer (fun _ _ _ => Raised Exception) 7
         (Some (lit "rocq")) None)
    = Returned text
    /\ text ∈ tweet_fallbacks.
Proof.
  eapply (generate_tweet_falls_back ascii_lower (fun _ => []) (fun _ => [])
            plain_generation fresh_analyzer (fun _ _ _ => Raised Exception) 7
            (Some (lit "rocq")) None).
  - reflexivity.
  - reflexivity.
Defined.

Lemma parse_idea_line_some isdigit line idea :
  Generator.parse_idea_line isdigit line = Some idea ->
  idea <> [] /\ strip idea = idea.
Proof.
  unfold Generator.parse_idea_line.
  destruct (strip line) as [|c rest]; [discriminate|].
  destruct (_ || _); [|discriminate].
  set (found := lstrip_by _ _).
  assert (Hidem : strip (strip found) = strip found) by apply strip_by_idem.
  destruct (strip found) as [|x xs]; simpl; [discriminate|].
  intros [= <-]. split; [discriminate|exact Hidem].
Qed.

(** For a count that is not negative, [generate_tweet_ideas] returns at
    most that many ideas, and each one is a non-empty text without
    whitespace around it. *)
Theorem generate_tweet_ideas_bounds
    (isdigit : char -> bool) (dict_keys : gmap str value -> list str)
    (style_analyzer : analyzer)
    (generate : str -> float -> Z -> outcome str)
    (count : Z) (ideas : list str) :
  (0 <= count)%Z ->
  gen_result
    (Generator.generate_tweet_ideas isdigit dict_keys style_analyzer generate
       count) = Returned ideas ->
  (Z.of_nat (length ideas) <= count)%Z
  /\ Forall (fun idea => idea <> [] /\ strip idea = idea) ideas.
Proof.
  intros Hcount. unfold Generator.generate_tweet_ideas.
  destruct (Generator.ideas_prompt _ _ _) as [prompt|e]; [|discriminate].
  destruct (generate prompt f0_9 300%Z) as [response|[|]]; simpl;
    intros [= <-].
  - unfold slice_to.
    replace (0 <=? count)%Z with true by (symmetry; apply Z.leb_le; exact Hcount).
    split.
    + rewrite length_take. lia.
    + apply Forall_take, Forall_forall.
      intros idea (line & _ & Hline)%list_elem_of_omap.
      exact (parse_idea_line_some _ _ _ Hline).
  - split; [simpl; lia|constructor].
Qed.

Lemma generate_tweet_ideas_bounds_witness :
  (Z.of_nat (length [lit "Proofs"; lit "Types"]) <= 2)%Z
  /\ Forall (fun idea => idea <> [] /\ strip idea = idea)
       [lit "Proofs"; lit "Types"].
Proof.
  apply (generate_tweet_ideas_bounds ascii_isdigit (fun _ => [])
           fresh_analyzer
           (fun _ _ _ =>
              Returned (lit "Sure:" ++ nl ++ lit "1. Proofs" ++ nl
                          ++ lit "- Types" ++ nl ++ lit "* Tactics"))
           2%Z [lit "Proofs"; lit "Types"]).
  - lia.
  - vm_compute. reflexivity.
Defined.

(** ** Submitting text to the platform *)

Lemma submit_calls create_tweet text reply_to :
  TwitterClient.sub_calls (TwitterClient.submit create_tweet text reply_to)
  = [{| TwitterClient.sent_text :=
          if 280 <? length text then take 277 text ++ lit "..." else text;
        TwitterClient.in_reply_to := reply_to |}].
Proof.
  unfold TwitterClient.submit.
  destruct (create_tweet _ _) as [id|[|]]; reflexivity.
Qed.

(** The client makes exactly one call to the platform, with a text of at
    most 280 characters; a text within that limit is sent as it is. *)
Theorem submit_within_limit
    (create_tweet : str -> option tweet_id -> outcome tweet_id)
    (text : str) (reply_to : option tweet_id) :
  exists sent,
    TwitterClient.sub_calls (TwitterClient.submit create_tweet text reply_to)
    = [{| TwitterClient.sent_text := sent;
          TwitterClient.in_reply_to := reply_to |}]
    /\ length sent <= 280
    /\ (length text <= 280 -> sent = text).
Proof.
  eexists. split; [apply submit_calls|]. split.
  - apply truncated_length.
  - intros H. replace (280 <? length text) with false; [reflexivity|].
    symmetry. apply Nat.ltb_ge. exact H.
Qed.

(** A text that [generate_tweet] returned reaches the platform as it is:
    the truncation of the client never applies to it. *)
Theorem generated_tweet_sent_verbatim
    (lower : str -> str) (py_str : value -> str)
    (dict_keys : gmap str value -> list str)
    (settings : generation_settings) (style_analyzer : analyzer)
    (generate : str -> float -> Z -> outcome str) (choice : nat)
    (topic context : option str)
    (create_tweet : str -> option tweet_id -> outcome tweet_id) (text : str) :
  gen_result
    (Generator.generate_tweet lower py_str dict_keys settings style_analyzer
       generate choice topic context) = Returned text ->
  TwitterClient.sub_calls (TwitterClient.post_tweet create_tweet text)
  = [{| TwitterClient.sent_text := text; TwitterClient.in_reply_to := None |}].
Proof.
  intros H. apply generate_tweet_length in H.
  unfold TwitterClient.post_tweet. rewrite submit_calls.
  replace (280 <? length text) with false; [reflexivity|].
  symmetry. apply Nat.ltb_ge. exact H.
Qed.

Lemma generated_tweet_sent_verbatim_witness :
  TwitterClient.sub_calls
    (TwitterClient.post_tweet (fun _ _ => Returned (IdInt 5))
       (lit "Great news today! #ai"))
  = [{| TwitterClient.sent_text := lit "Great news today! #ai";
        TwitterClient.in_reply_to := None |}].
Proof.
  apply (generated_tweet_sent_verbatim ascii_lower (fun _ => [])
           (fun _ => []) plain_generation fresh_analyzer
           (fun _ _ _ => Returned (lit "Tweet: Great news today! #ai")) 0
           None None (fun _ _ => Returned (IdInt 5))
           (lit "Great news today! #ai")).
  vm_compute. reflexivity.
Defined.

(** ** The jobs of the scheduler *)

(** *** Jobs always return *)

Lemma uninterrupted_ret {A} (a : A) : uninterrupted (ret a).
Proof. intros r. discriminate. Qed.

Lemma uninterrupted_read {A} (field : scheduler -> A) :
  uninterrupted (read field).
Proof. intros r. discriminate. Qed.

Lemma uninterrupted_write update : uninterrupted (write update).
Proof. intros r. discriminate. Qed.

Lemma uninterrupted_lift {A} (o : outcome A) :
  o <> Raised BaseException -> uninterrupted (lift o).
Proof. intros H r. exact H. Qed.

Lemma uninterrupted_perform {A} c (answer : list entry -> outcome A) :
  (forall h, answer h <> Raised BaseException) ->
  uninterrupted (perform c answer).
Proof. intros H r. apply H. Qed.

Lemma uninterrupted_bind {A B} (m : M A) (k : A -> M B) :
  uninterrupted m -> (forall a, uninterrupted (k a)) ->
  uninterrupted (bind m k).
Proof.
  intros Hm Hk r. unfold bind. specialize (Hm r).
  destruct (m r) as [[a|e] r']; [apply Hk|].
  simpl in *. intros [= ->]. apply Hm. reflexivity.
Qed.

(** A handler turns a computation that is not interrupted into one that
    returns. *)
Lemma try_except_returns (m : M unit) r :
  uninterrupted m -> (try_except m r).1 = Returned tt.
Proof.
  intros Hm. specialize (Hm r). unfold try_except.
  destruct (m r) as [[[]|[|]] r']; simpl in *; congruence.
Qed.

Lemma uninterrupted_try_except (m : M unit) :
  uninterrupted m -> uninterrupted (try_except m).
Proof. intros Hm r. rewrite (try_except_returns m r Hm). discriminate. Qed.

Lemma uninterrupted_for_each {A} (xs : list A) (body : A -> M unit) :
  (forall x, uninterrupted (body x)) -> uninterrupted (for_each xs body).
Proof.
  intros Hbody. induction xs as [|x xs IH]; simpl.
  - apply uninterrupted_ret.
  - apply uninterrupted_bind; [apply Hbody|intros _; exact IH].
Qed.

Lemma subscript_not_interrupted {A} (field : option A) :
  subscript field <> Raised BaseException.
Proof. destruct field; discriminate. Qed.

Lemma make_time_not_interrupted h m : make_time h m <> Raised BaseException.
Proof. unfold make_time. destruct (_ && _); discriminate. Qed.

(** Takes a goal [uninterrupted m] apart along the structure of [m]. *)
Ltac uninterrupted_steps :=
  repeat first
    [ apply uninterrupted_ret
    | apply uninterrupted_read
    | apply uninterrupted_write
    | apply uninterrupted_try_except
    | apply uninterrupted_for_each; intros ?
    | apply uninterrupted_lift;
        first [apply subscript_not_interrupted | apply make_time_not_interrupted]
    | apply uninterrupted_perform; intros ?;
        first [solve [auto] | discriminate]
    | apply uninterrupted_bind; [|intros ?]
    | match goal with
      | |- uninterrupted (if ?b then _ else _) => destruct b
      | |- uninterrupted (match ?x with _ => _ end) => destruct x
      end ].

Lemma uninterrupted_timeline_loop lower cfg w max_replies tweets :
  never_interrupted w ->
  forall replies_sent,
    uninterrupted (timeline_loop lower cfg w max_replies tweets replies_sent).
Proof.
  intros (_ & _ & Hgen & _ & Hrep & _ & _).
  induction tweets as [|tw rest IH]; intros replies_sent; simpl.
  - apply uninterrupted_ret.
  - uninterrupted_steps; apply IH.
Qed.

(** When no collaborator raises outside [Exception], every firing of the
    post job and of the reply monitor returns: whatever else the
    collaborators raise is caught inside the job. *)
Theorem jobs_always_return
    (lower : str -> str) (cfg : config) (w : world) (r : run) :
  never_interrupted w ->
  (_post_tweet_job cfg w r).1 = Returned tt
  /\ (_monitor_and_reply_job lower cfg w r).1 = Returned tt.
Proof.
  intros Hw.
  pose proof Hw as (Hideas & Htweet & Hgen & Hpost & Hrep & Hment & Htl).
  split; apply try_except_returns.
  - unfold random_choice. uninterrupted_steps.
  - unfold _reply_to_mention, _monitor_timeline.
    uninterrupted_steps.
    apply uninterrupted_timeline_loop. exact Hw.
Qed.

Lemma jobs_always_return_witness :
  (_post_tweet_job no_settings greeted_world idle).1 = Returned tt
  /\ (_monitor_and_reply_job ascii_lower no_settings greeted_world idle).1
     = Returned tt.
Proof.
  apply (jobs_always_return ascii_lower no_settings greeted_world idle).
  repeat split; intros; discriminate.
Defined.

(** *** The daily counter *)

(** The post job writes nothing but [posts_today], which it leaves alone or
    raises by one, and raises only from below the daily limit: the counter
    never passes the limit through the job. *)
Theorem post_job_respects_limit (cfg : config) (w : world) (r : run) :
  let r' := (_post_tweet_job cfg w r).2 in
  let max_posts := config_get (posting_max_posts_per_day cfg) 10%Z in
  last_mention_id (sched r') = last_mention_id (sched r)
  /\ jobs (sched r') = jobs (sched r)
  /\ (posts_today (sched r') = posts_today (sched r)
      \/ (posts_today (sched r') = posts_today (sched r) + 1
          /\ posts_today (sched r) < max_posts))%Z.
Proof.
  intros r' max_posts. unfold r', _post_tweet_job.
  rewrite try_except_run.
  unfold bind, lift, read, write, perform, ret, random_choice. simpl.
  fold max_posts.
  destruct (make_time _ 0); [|simpl; auto].
  destruct (make_time _ 0); [|simpl; auto].
  destruct (negb _); [simpl; auto|].
  destruct (Z.leb_spec max_posts (posts_today (sched r))); [simpl; auto|].
  destruct (generate_tweet_ideas w _ _) as [[|idea ideas]|e]; simpl; auto;
    (destruct (generate_tweet w _ _) as [text|e]; simpl; auto;
     destruct (truthy text); simpl; auto;
     destruct (post_tweet w _ _) as [[p|]|e]; simpl; auto).
Qed.

(** With the daily limit reached the post job does nothing, at any time of
    day. *)
Lemma post_job_skips_when_full (cfg : config) (w : world) (r : run) :
  (config_get (posting_max_posts_per_day cfg) 10 <= posts_today (sched r))%Z ->
  _post_tweet_job cfg w r = (Returned tt, r).
Proof.
  intros Hfull. unfold _post_tweet_job, try_except.
  unfold bind, lift, read, ret. simpl.
  pose proof (make_time_not_interrupted
                (config_get (posting_hours_start cfg) 9%Z) 0) as H1.
  pose proof (make_time_not_interrupted
                (config_get (posting_hours_end cfg) 21%Z) 0) as H2.
  destruct (make_time (config_get (posting_hours_start cfg) 9%Z) 0)
    as [t1|[|]]; [|reflexivity|congruence].
  destruct (make_time (config_get (posting_hours_end cfg) 21%Z) 0)
    as [t2|[|]]; [|reflexivity|congruence].
  destruct (negb _); [reflexivity|].
  replace (_ <=? _)%Z with true by (symmetry; apply Z.leb_le; exact Hfull).
  reflexivity.
Qed.

(** A manual post counts against the daily limit: when [post_now] gets a
    text and the platform accepts it, [posts_today] goes up by one, also
    from the limit or beyond it, and if that reaches the limit the next
    firing of the post job does nothing, whatever its surroundings. *)
Theorem manual_post_counts (cfg : config) (w : world) (r : run)
    (topic : option str) (text : str) (p : posted) :
  generate_tweet w (log r) topic = Returned text ->
  truthy text = true ->
  post_tweet w (log r ++ [{| at_state := sched r; made := GenerateTweet topic |}])
    text = Returned (Some p) ->
  let r' := (post_now w topic r).2 in
  (post_now w topic r).1 = Returned (Some p)
  /\ posts_today (sched r') = (posts_today (sched r) + 1)%Z
  /\ ((config_get (posting_max_posts_per_day cfg) 10 - 1
       <= posts_today (sched r))%Z ->
      forall w', _post_tweet_job cfg w' r' = (Returned tt, r')).
Proof.
  intros Hgen Htext Hpost r'.
  assert (E : post_now w topic r
              = (Returned (Some p),
                 {| sched := set_posts_today (posts_today (sched r) + 1)
                               (sched r);
                    log := (log r ++ [{| at_state := sched r;
                                         made := GenerateTweet topic |}])
                           ++ [{| at_state := sched r;
                                  made := PostTweet text |}] |})).
  { unfold post_now, bind, perform, read, write, ret. simpl.
    rewrite Hgen, Htext. simpl. rewrite Hpost. reflexivity. }
  unfold r'. rewrite E. simpl. repeat split.
  intros Hfull w'. apply post_job_skips_when_full. simpl. lia.
Qed.

Lemma manual_post_counts_witness :
  let full := {| sched := set_posts_today 10 (sched idle); log := [] |} in
  posts_today
    (sched (post_now (calm_world (on_the_hour 3) 0) None full).2) = 11%Z.
Proof.
  destruct (manual_post_counts no_settings (calm_world (on_the_hour 3) 0)
              {| sched := set_posts_today 10 (sched idle); log := [] |}
              None (lit "hi")
              {| posted_id := IdInt 1; posted_text := lit "hi" |})
    as (_ & H & _); try reflexivity.
Defined.

(** The scheduler after a firing of the reply monitor: as before, or with
    a new cursor. *)
Lemma monitor_job_sched lower cfg w r :
  sched (_monitor_and_reply_job lower cfg w r).2 = sched r
  \/ exists id,
       sched (_monitor_and_reply_job lower cfg w r).2
       = set_last_mention_id id (sched r).
Proof.
  remember (_monitor_and_reply_job lower cfg w r).2 as r1 eqn:E.
  unfold _monitor_and_reply_job in E.
  rewrite try_except_run, bind_read in E.
  unfold bind at 1, perform at 1 in E.
  destruct (get_mentions w _ _ _) as [[|newest rest]|e]; cbv iota in E;
    subst r1.
  - left.
    match goal with
    | |- sched (?m ?r0).2 = _ =>
        assert (Hq : quiet m); [|destruct (Hq r0) as (-> & _); reflexivity]
    end.
    apply quiet_bind; [apply quiet_ret|intros _; apply quiet_monitor_timeline].
  - right. exists (tw_id newest). rewrite bind_bind, bind_write.
    match goal with
    | |- sched (?m ?r0).2 = _ =>
        assert (Hq : quiet m); [|destruct (Hq r0) as (-> & _); reflexivity]
    end.
    apply quiet_bind; [|intros _; apply quiet_monitor_timeline].
    apply quiet_for_each. intros m. apply quiet_reply_to_mention.
  - left. reflexivity.
Qed.

(** The reply monitor writes nothing but the cursor: [posts_today] and the
    job store are as they were after every firing. *)
Theorem monitor_job_keeps_counter
    (lower : str -> str) (cfg : config) (w : world) (r : run) :
  let r' := (_monitor_and_reply_job lower cfg w r).2 in
  posts_today (sched r') = posts_today (sched r)
  /\ jobs (sched r') = jobs (sched r).
Proof.
  intros r'. unfold r'.
  destruct (monitor_job_sched lower cfg w r) as [->|(id & ->)];
    split; reflexivity.
Qed.

(** *** The timeline *)

Lemma calls_only_ret Q {A} (a : A) : calls_only Q (ret a).
Proof. intros r. exists []. split; [symmetry; apply app_nil_r|constructor]. Qed.

Lemma calls_only_lift Q {A} (o : outcome A) : calls_only Q (lift o).
Proof. intros r. exists []. split; [symmetry; apply app_nil_r|constructor]. Qed.

Lemma calls_only_perform (Q : call -> Prop) {A} c
    (answer : list entry -> outcome A) :
  Q c -> calls_only Q (perform c answer).
Proof.
  intros Hc r. exists [{| at_state := sched r; made := c |}].
  split; [reflexivity|]. repeat constructor. exact Hc.
Qed.

Lemma calls_only_bind Q {A B} (m : M A) (k : A -> M B) :
  calls_only Q m -> (forall a, calls_only Q (k a)) -> calls_only Q (bind m k).
Proof.
  intros Hm Hk r. unfold bind.
  destruct (Hm r) as (new & Hl & Hnew).
  destruct (m r) as [[a|e] r']; simpl in *.
  - destruct (Hk a r') as (new' & Hl' & Hnew').
    exists (new ++ new'). split.
    + rewrite Hl', Hl. symmetry. apply app_assoc.
    + apply Forall_app. split; assumption.
  - exists new. split; assumption.
Qed.

Lemma calls_only_weaken (Q Q' : call -> Prop) {A} (m : M A) :
  (forall c, Q c -> Q' c) -> calls_only Q m -> calls_only Q' m.
Proof.
  intros HQ Hm r. destruct (Hm r) as (new & Hl & Hnew).
  exists new. split; [exact Hl|].
  eapply Forall_impl; [exact Hnew|]. intros e. apply HQ.
Qed.

Lemma timeline_call_weaken own tw tweets c :
  timeline_call own tweets c -> timeline_call own (tw :: tweets) c.
Proof.
  destruct c; simpl; try tauto.
  intros (tw' & Hin & Hid & Hauthor). exists tw'.
  split; [right; exact Hin|split; assumption].
Qed.

Lemma calls_only_timeline_loop lower cfg w max_replies tweets :
  forall replies_sent,
    calls_only (timeline_call (user_id w) tweets)
      (timeline_loop lower cfg w max_replies tweets replies_sent).
Proof.
  induction tweets as [|tw rest IH]; intros replies_sent; simpl.
  - apply calls_only_ret.
  - assert (Hrest : forall n,
              calls_only (timeline_call (user_id w) (tw :: rest))
                (timeline_loop lower cfg w max_replies rest n)).
    { intros n. eapply calls_only_weaken; [|apply IH].
      intros c. apply timeline_call_weaken. }
    destruct (_ <=? _)%Z; [apply calls_only_ret|].
    case_bool_decide as Hown; [apply Hrest|].
    apply calls_only_bind; [apply calls_only_perform; exact I|intros random].
    destruct (should_reply_to_tweet _ _ _ _); [|apply Hrest].
    apply calls_only_bind; [apply calls_only_lift|intros original].
    apply calls_only_bind; [apply calls_only_perform; exact I|intros text].
    destruct (truthy text); [|apply Hrest].
    apply calls_only_bind.
    + apply calls_only_perform. exists tw.
      split; [left|split; [reflexivity|exact Hown]].
    + intros [p|]; apply Hrest.
Qed.

(** After fetching the timeline, [_monitor_timeline] only draws random
    numbers, asks for replies and submits replies, and every reply it
    submits is to one of the tweets fetched that the account itself did not
    write. *)
Theorem monitor_timeline_replies_to_others
    (lower : str -> str) (cfg : config) (w : world) (r : run) :
  let tweets :=
    match get_home_timeline w (log r) 20%Z with
    | Returned tweets => tweets
    | Raised _ => []
    end in
  exists later,
    log (_monitor_timeline lower cfg w r).2
    = log r ++ {| at_state := sched r; made := GetHomeTimeline 20 |} :: later
    /\ Forall (fun e => timeline_call (user_id w) tweets (made e)) later.
Proof.
  intros tweets. unfold _monitor_timeline.
  rewrite try_except_run.
  unfold bind, perform. fold tweets.
  destruct (get_home_timeline w (log r) 20%Z) as [fetched|e]; simpl in *.
  - destruct (calls_only_timeline_loop lower cfg w
                (config_get (replies_max_replies_per_check cfg) 5%Z) fetched
                0%Z
                {| sched := sched r;
                   log := log r ++ [{| at_state := sched r;
                                       made := GetHomeTimeline 20 |}] |})
      as (later & Hl & Hlater).
    exists later. split; [|exact Hlater].
    rewrite Hl. simpl. rewrite <- app_assoc. reflexivity.
  - exists []. split; [reflexivity|constructor].
Qed.

Lemma accepted_replies_app w h new1 new2 :
  accepted_replies w h (new1 ++ new2)
  = accepted_replies w h new1 + accepted_replies w (h ++ new1) new2.
Proof.
  revert h. induction new1 as [|e new1 IH]; intros h; simpl.
  - rewrite app_nil_r. reflexivity.
  - rewrite IH, <- app_assoc. simpl. lia.
Qed.

Lemma timeline_loop_accepted lower cfg w max_replies tweets :
  forall replies_sent r,
    exists new,
      log (timeline_loop lower cfg w max_replies tweets replies_sent r).2
      = log r ++ new
      /\ (Z.of_nat (accepted_replies w (log r) new)
          <= Z.max 0 (max_replies - replies_sent))%Z.
Proof.
  induction tweets as [|tw rest IH]; intros replies_sent r; simpl.
  - exists []. split; [symmetry; apply app_nil_r|simpl; lia].
  - destruct (Z.leb_spec max_replies replies_sent) as [Hcap|Hcap].
    { exists []. split; [symmetry; apply app_nil_r|simpl; lia]. }
    case_bool_decide as Hown; [apply IH|].
    unfold bind at 1, perform at 1. cbv iota beta.
    set (e1 := {| at_state := sched r; made := RandomRandom |}).
    set (r1 := {| sched := sched r; log := log r ++ [e1] |}).
    assert (Hskip : forall n,
              (replies_sent <= n)%Z ->
              forall rk newk,
                log rk = log r ++ newk ->
                accepted_replies w (log r) newk = 0 ->
                exists new,
                  log (timeline_loop lower cfg w max_replies rest n rk).2
                  = log r ++ new
                  /\ (Z.of_nat (accepted_replies w (log r) new)
                      <= Z.max 0 (max_replies - n))%Z).
    { intros n Hn rk newk Hk Hzero.
      destruct (IH n rk) as (new & Hl & Hle).
      exists (newk ++ new). split.
      - rewrite Hl, Hk. symmetry. apply app_assoc.
      - rewrite accepted_replies_app, Hzero, <- Hk. simpl. exact Hle. }
    destruct (should_reply_to_tweet _ _ _ _).
    2:{ destruct (Hskip replies_sent ltac:(lia) r1 [e1] eq_refl eq_refl)
          as (new & Hl & Hle).
        exists new. split; [exact Hl|lia]. }
    unfold bind at 1, lift at 1.
    destruct (subscript (tw_text tw)) as [original|e]; cbv iota beta.
    2:{ exists [e1]. split; [reflexivity|simpl; lia]. }
    unfold bind at 1, perform at 1. cbv iota beta.
    set (e2 := {| at_state := sched r1; made := GenerateReply original _ |}).
    set (r2 := {| sched := sched r1; log := log r1 ++ [e2] |}).
    destruct (generate_reply w (log r1) original _) as [text|e];
      cbv iota beta.
    2:{ exists [e1; e2]. split; [unfold r1; simpl; rewrite <- app_assoc;
                                  reflexivity|simpl; lia]. }
    destruct (truthy text).
    2:{ destruct (Hskip replies_sent ltac:(lia) r2 [e1; e2]) as (new & Hl & Hle).
        - unfold r2, r1. simpl. rewrite <- app_assoc. reflexivity.
        - reflexivity.
        - exists new. split; [exact Hl|lia]. }
    unfold bind at 1, perform at 1. cbv iota beta.
    set (e3 := {| at_state := sched r2; made := ReplyToTweet (tw_id tw) text |}).
    set (r3 := {| sched := sched r2; log := log r2 ++ [e3] |}).
    assert (Hlog3 : log r3 = log r ++ [e1; e2; e3]).
    { unfold r3, r2, r1. simpl. rewrite <- !app_assoc. reflexivity. }
    assert (Hlog2 : log r2 = log r ++ [e1; e2]).
    { unfold r2, r1. simpl. rewrite <- !app_assoc. reflexivity. }
    destruct (reply_to_tweet w (log r2) (tw_id tw) text) as [[p|]|e] eqn:E;
      cbv iota beta.
    + destruct (IH (replies_sent + 1)%Z r3) as (new & Hl & Hle).
      exists ([e1; e2; e3] ++ new). split.
      * rewrite Hl, Hlog3. symmetry. apply app_assoc.
      * rewrite accepted_replies_app, <- Hlog3.
        change (accepted_replies w (log r) [e1; e2; e3])
          with (0 + (0 + ((match reply_to_tweet w ((log r ++ [e1]) ++ [e2])
                                   (tw_id tw) text with
                           | Returned (Some _) => 1
                           | _ => 0
                           end) + 0))).
        replace ((log r ++ [e1]) ++ [e2]) with (log r2)
          by (rewrite Hlog2, <- app_assoc; reflexivity).
        rewrite E. lia.
    + destruct (Hskip replies_sent ltac:(lia) r3 [e1; e2; e3] Hlog3)
        as (new & Hl & Hle).
      * change (accepted_replies w (log r) [e1; e2; e3])
          with (0 + (0 + ((match reply_to_tweet w ((log r ++ [e1]) ++ [e2])
                                   (tw_id tw) text with
                           | Returned (Some _) => 1
                           | _ => 0
                           end) + 0))).
        replace ((log r ++ [e1]) ++ [e2]) with (log r2)
          by (rewrite Hlog2, <- app_assoc; reflexivity).
        rewrite E. reflexivity.
      * exists new. split; [exact Hl|lia].
    + exists [e1; e2; e3]. split; [exact Hlog3|].
      change (accepted_replies w (log r) [e1; e2; e3])
        with (0 + (0 + ((match reply_to_tweet w ((log r ++ [e1]) ++ [e2])
                                 (tw_id tw) text with
                         | Returned (Some _) => 1
                         | _ => 0
                         end) + 0))).
      replace ((log r ++ [e1]) ++ [e2]) with (log r2)
        by (rewrite Hlog2, <- app_assoc; reflexivity).
      rewrite E. simpl. lia.
Qed.

(** In one firing [_monitor_timeline] gets at most
    [max_replies_per_check] replies accepted by the platform, and none when
    that setting is zero or negative. *)
Theorem monitor_timeline_reply_cap
    (lower : str -> str) (cfg : config) (w : world) (r : run) :
  exists new,
    log (_monitor_timeline lower cfg w r).2 = log r ++ new
    /\ (Z.of_nat (accepted_replies w (log r) new)
        <= Z.max 0 (config_get (replies_max_replies_per_check cfg) 5))%Z.
Proof.
  unfold _monitor_timeline. rewrite try_except_run.
  unfold bind, perform.
  set (e0 := {| at_state := sched r; made := GetHomeTimeline 20 |}).
  destruct (get_home_timeline w (log r) 20%Z) as [fetched|e]; simpl.
  - destruct (timeline_loop_accepted lower cfg w
                (config_get (replies_max_replies_per_check cfg) 5%Z) fetched
                0%Z {| sched := sched r; log := log r ++ [e0] |})
      as (new & Hl & Hle).
    exists ([e0] ++ new). split.
    + rewrite Hl. simpl. rewrite <- app_assoc. reflexivity.
    + rewrite accepted_replies_app. simpl in *.
      rewrite Z.sub_0_r in Hle. lia.
  - exists [e0]. split; [reflexivity|simpl; lia].
Qed.

(** *** Mentions *)

(** When no collaborator raises outside [Exception], a reply that fails
    does not keep the later mentions from being answered: the loop over the
    mentions returns, and a reply was requested once for each mention that
    has a text, in the order of the mentions. *)
Theorem mentions_each_get_a_reply (w : world) (mentions : list tweet) :
  never_interrupted w ->
  forall r,
    exists new,
      for_each mentions (_reply_to_mention w) r
      = (Returned tt, {| sched := sched r; log := log r ++ new |})
      /\ replies_requested new = omap tw_text mentions.
Proof.
  intros (_ & _ & Hgen & _ & Hrep & _ & _).
  induction mentions as [|m ms IH]; intros r.
  - exists []. split; [|reflexivity].
    simpl. unfold ret. rewrite app_nil_r. destruct r; reflexivity.
  - cbn [for_each]. unfold bind at 1.
    assert (Hone : exists new1,
              _reply_to_mention w m r
              = (Returned tt, {| sched := sched r; log := log r ++ new1 |})
              /\ replies_requested new1
                 = match tw_text m with Some t => [t] | None => [] end).
    { unfold _reply_to_mention, try_except, bind, lift, perform, ret.
      destruct (tw_text m) as [original|]; simpl.
      2:{ exists []. rewrite app_nil_r. destruct r; split; reflexivity. }
      specialize (Hgen (log r) original None).
      destruct (generate_reply w (log r) original None) as [text|[|]];
        [|eexists [_]; split; reflexivity|congruence].
      destruct (truthy text); [|eexists [_]; split; reflexivity].
      match goal with
      | |- context [reply_to_tweet w ?h ?i ?t] =>
          specialize (Hrep h i t); destruct (reply_to_tweet w h i t) as [p|[|]]
      end; [| |congruence];
        (eexists [_; _]; split; [simpl; rewrite <- app_assoc; reflexivity
                                |reflexivity]). }
    destruct Hone as (new1 & -> & Hreq1).
    destruct (IH {| sched := sched r; log := log r ++ new1 |})
      as (new2 & -> & Hreq2).
    exists (new1 ++ new2). split.
    + simpl. rewrite <- app_assoc. reflexivity.
    + unfold replies_requested in *. rewrite omap_app, Hreq1, Hreq2.
      change (omap tw_text (m :: ms))
        with (match tw_text m with
              | Some t => t :: omap tw_text ms
              | None => omap tw_text ms
              end).
      destruct (tw_text m); reflexivity.
Qed.

Lemma mentions_each_get_a_reply_witness :
  exists new,
    for_each [hello_tweet; hello_tweet] (_reply_to_mention greeted_world) idle
    = (Returned tt, {| sched := sched idle; log := log idle ++ new |})
    /\ replies_requested new = omap tw_text [hello_tweet; hello_tweet].
Proof.
  apply (mentions_each_get_a_reply greeted_world [hello_tweet; hello_tweet]).
  repeat split; intros; discriminate.
Defined.

(** *** Starting the scheduler *)

(** With posting hours that end no later than they start, [start] sets up
    neither the post job nor the daily reset and draws no random number;
    the reply monitor is set up as usual. *)
Theorem start_with_empty_window (cfg : config) (w : world) (r : run) :
  (config_get (posting_hours_end cfg) 21 <= config_get (posting_hours_start cfg) 9)%Z ->
  start cfg w r
  = (Returned tt,
     {| sched :=
          if config_get (replies_enabled cfg) true
          then add_job (lit "monitor_replies")
                 (IntervalTrigger
                    (config_get (replies_check_interval_minutes cfg) 30%Z))
                 (sched r)
          else sched r;
        log := log r |}).
Proof.
  intros Hwindow. unfold start, _schedule_posting, _schedule_reply_monitoring.
  replace (_ - _ <=? 0)%Z with true by (symmetry; apply Z.leb_le; lia).
  unfold bind, write, ret.
  destruct (config_get (posting_enabled cfg) true),
           (config_get (replies_enabled cfg) true); simpl;
    destruct r; reflexivity.
Qed.

Lemma start_with_empty_window_witness :
  jobs (sched (start night_shift (calm_world (on_the_hour 0) 0) idle).2)
  = {[ lit "monitor_replies" := IntervalTrigger 30 ]}.
Proof.
  rewrite (start_with_empty_window night_shift (calm_world (on_the_hour 0) 0)
             idle).
  - reflexivity.
  - vm_compute. discriminate.
Defined.

(** With posting enabled, valid hours and [max_posts_per_day] set to zero,
    [start] raises from the division and sets up nothing, the reply monitor
    included. *)
Theorem start_with_zero_posts (cfg : config) (w : world) (r : run) :
  config_get (posting_enabled cfg) true = true ->
  (config_get (posting_hours_start cfg) 9 < config_get (posting_hours_end cfg) 21)%Z ->
  config_get (posting_max_posts_per_day cfg) 10%Z = 0%Z ->
  start cfg w r = (Raised Exception, r).
Proof.
  intros Henabled Hwindow Hzero.
  unfold start, _schedule_posting. rewrite Henabled, Hzero.
  replace (_ - _ <=? 0)%Z with false by (symmetry; apply Z.leb_gt; lia).
  reflexivity.
Qed.

Lemma start_with_zero_posts_witness :
  start never_post (calm_world (on_the_hour 0) 0) idle
  = (Raised Exception, idle).
Proof.
  apply (start_with_zero_posts never_post (calm_world (on_the_hour 0) 0) idle).
  - reflexivity.
  - reflexivity.
  - reflexivity.
Defined.

(** ** Settings *)

Lemma walk_not_none keys :
  forall v default, default <> VNone -> Config.walk keys v default <> VNone.
Proof.
  induction keys as [|k keys IH]; intros v default Hd; simpl.
  - destruct v; try discriminate. exact Hd.
  - destruct v; try exact Hd.
    destruct (d !! k) as [[]|]; try exact Hd; apply IH; exact Hd.
Qed.

Lemma split_on_no_sep sep (k : str) :
  Forall (fun c => c <> sep) k -> split_on sep k = [k].
Proof.
  induction 1 as [|c k Hc _ IH]; [reflexivity|].
  simpl. destruct (N.eqb_spec c sep); [contradiction|].
  rewrite IH. reflexivity.
Qed.

Lemma split_on_app sep (a b : str) :
  Forall (fun c => c <> sep) a ->
  split_on sep (a ++ sep :: b) = a :: split_on sep b.
Proof.
  induction 1 as [|c a Hc _ IH]; simpl.
  - rewrite N.eqb_refl. reflexivity.
  - destruct (N.eqb_spec c sep); [contradiction|].
    rewrite IH. reflexivity.
Qed.

(** Splitting a dotted key gives back the parts it was joined from. *)
Lemma split_on_join (part : str) (parts : list str) :
  Forall (Forall (fun c => c <> 46%N)) (part :: parts) ->
  split_on 46%N (join (lit ".") (part :: parts)) = part :: parts.
Proof.
  revert part. induction parts as [|next parts IH]; intros part Hparts.
  - simpl. apply split_on_no_sep. inversion Hparts; assumption.
  - inversion Hparts as [|? ? Hpart Hrest]; subst.
    change (join (lit ".") (part :: next :: parts))
      with (part ++ 46%N :: join (lit ".") (next :: parts)).
    rewrite (split_on_app _ _ _ Hpart), (IH next Hrest). reflexivity.
Qed.

(** The loop gives up with the default where the path leaves the
    dictionaries or meets an absent or null key. *)
Lemma walk_lacking (settings found : value) (before : list str) (k : str)
    (after : list str) (default : value) :
  reaches settings before found -> lacks found k ->
  Config.walk (before ++ k :: after) settings default = default.
Proof.
  intros Hreach Hlack.
  induction Hreach as [v|d k0 v path found Hlook Hreach IH].
  - simpl. destruct v; try reflexivity.
    simpl in Hlack. destruct Hlack as [->| ->]; reflexivity.
  - simpl. rewrite Hlook.
    destruct v; first [reflexivity|apply IH; exact Hlack].
Qed.

(** [Config.get] gives the default wherever the dotted key leads to no
    value: when a part of the key, at any level, is absent from its
    dictionary or null there, or is looked up in a value that is not a
    dictionary, whatever parts follow it. So it never returns [None] when
    the default is not [None]. *)
Theorem config_get_default (settings default : value) :
  (forall (before : list str) (k : str) (after : list str) (found : value),
     Forall (Forall (fun c => c <> 46%N)) (before ++ k :: after) ->
     reaches settings before found ->
     lacks found k ->
     Config.get settings (join (lit ".") (before ++ k :: after)) default
     = default)
  /\ (default <> VNone ->
      forall key : str, Config.get settings key default <> VNone).
Proof.
  split.
  - intros before k after found Hparts Hreach Hlack. unfold Config.get.
    destruct (before ++ k :: after) as [|part parts] eqn:E.
    { destruct before; discriminate. }
    rewrite (split_on_join part parts Hparts), <- E.
    apply (walk_lacking settings found); assumption.
  - intros Hd key. apply walk_not_none. exact Hd.
Qed.

Lemma config_get_default_witness :
  Config.get flat_hours (lit "posting.posting_hours.start") (VInt 9) = VInt 9
  /\ Config.get flat_hours (lit "posting.max_posts_per_day") (VInt 10)
     = VInt 10
  /\ Config.get flat_hours (lit "posting.posting_hours") (VInt 9) <> VNone.
Proof.
  split; [|split].
  - apply (proj1 (config_get_default flat_hours (VInt 9))
             [lit "posting"; lit "posting_hours"] (lit "start") []
             (VInt 5)).
    + repeat constructor; discriminate.
    + apply (reaches_step _ _
               (VDict {[ lit "posting_hours" := VInt 5 ]})).
      { vm_compute. reflexivity. }
      apply (reaches_step _ _ (VInt 5)).
      { vm_compute. reflexivity. }
      apply reaches_here.
    + exact I.
  - apply (proj1 (config_get_default flat_hours (VInt 10))
             [lit "posting"] (lit "max_posts_per_day") []
             (VDict {[ lit "posting_hours" := VInt 5 ]})).
    + repeat constructor; discriminate.
    + apply (reaches_step _ _
               (VDict {[ lit "posting_hours" := VInt 5 ]})).
      { vm_compute. reflexivity. }
      apply reaches_here.
    + left. vm_compute. reflexivity.
  - apply (proj2 (config_get_default flat_hours (VInt 9))).
    discriminate.
Defined.

(** A value stored under a section is found by the dotted key, and
    returned as it is whenever it is not null: a setting that is false, zero
    or empty is not replaced by the default. *)
Theorem config_get_dotted (section : gmap str value) (entries : gmap str value)
    (k1 k2 : str) (v default : value) :
  Forall (fun c => c <> 46%N) k1 ->
  Forall (fun c => c <> 46%N) k2 ->
  section !! k1 = Some (VDict entries) ->
  entries !! k2 = Some v ->
  v <> VNone ->
  Config.get (VDict section) (k1 ++ lit "." ++ k2) default = v.
Proof.
  intros H1 H2 Hsection Hentry Hv. unfold Config.get.
  change (lit "." ++ k2) with (46%N :: k2).
  rewrite (split_on_app _ _ _ H1), (split_on_no_sep _ _ H2).
  simpl. rewrite Hsection, Hentry.
  destruct v; try reflexivity. contradiction.
Qed.

Lemma config_get_dotted_witness :
  Config.get
    (VDict {[ lit "posting" := VDict {[ lit "enabled" := VBool false ]} ]})
    (lit "posting" ++ lit "." ++ lit "enabled") (VBool true)
  = VBool false.
Proof.
  apply (config_get_dotted
           {[ lit "posting" := VDict {[ lit "enabled" := VBool false ]} ]}
           {[ lit "enabled" := VBool false ]}
           (lit "posting") (lit "enabled") (VBool false) (VBool true)).
  - repeat constructor; discriminate.
  - repeat constructor; discriminate.
  - vm_compute. reflexivity.
  - vm_compute. reflexivity.
  - discriminate.
Defined.

(** ** The document processor *)

Section Accumulate.
Variable p : char -> bool.

Lemma rstrip_by_all (t : str) : Forall (fun c => p c = true) t -> rstrip_by p t = [].
Proof.
  induction 1 as [|c t Hc _ IH]; [reflexivity|].
  simpl. rewrite IH, Hc. reflexivity.
Qed.

(** Characters to strip at the end of a text do not change what the
    stripping on the right gives. *)
Lemma rstrip_by_app_all (x t : str) :
  Forall (fun c => p c = true) t -> rstrip_by p (x ++ t) = rstrip_by p x.
Proof.
  intros Ht. induction x as [|c x IH]; simpl.
  - apply rstrip_by_all. exact Ht.
  - rewrite IH. reflexivity.
Qed.

(** A text that ends with a right-stripped, non-empty text is itself
    right-stripped. *)
Lemma rstrip_by_app_fixed (x y : str) :
  y <> [] -> rstrip_by p y = y -> rstrip_by p (x ++ y) = x ++ y.
Proof.
  intros Hy Hfix. induction x as [|c x IH]; simpl; [exact Hfix|].
  rewrite IH. destruct (x ++ y) eqn:E; [|reflexivity].
  apply app_eq_nil in E. destruct E as [_ E]. contradiction.
Qed.

Lemma lstrip_by_app_fixed (x y : str) :
  x <> [] -> lstrip_by p x = x -> lstrip_by p (x ++ y) = x ++ y.
Proof.
  intros Hx Hfix. destruct x as [|c x]; [contradiction|].
  apply lstrip_by_fixed_head in Hfix. simpl. rewrite Hfix. reflexivity.
Qed.

Lemma solid_strip (s : str) :
  truthy (strip_by p s) = true -> solid p (strip_by p s).
Proof.
  intros H. destruct (strip_by_fixed p s) as [Hl Hr].
  split; [|split; assumption].
  intros E. rewrite E in H. discriminate.
Qed.

Lemma solid_app (x y : str) :
  solid p x -> solid p y -> forall mid, solid p (x ++ mid ++ y).
Proof.
  intros (Hx & Hxl & _) (Hy & _ & Hyr) mid. split; [|split].
  - destruct x; [contradiction|discriminate].
  - apply lstrip_by_app_fixed; assumption.
  - rewrite app_assoc. apply rstrip_by_app_fixed; assumption.
Qed.

Lemma strip_by_solid_blank (y blank : str) :
  solid p y -> Forall (fun c => p c = true) blank ->
  strip_by p (y ++ blank) = y.
Proof.
  intros (Hy & Hl & Hr) Hblank. unfold strip_by.
  rewrite (lstrip_by_app_fixed y blank Hy Hl).
  rewrite (rstrip_by_app_all y blank Hblank). exact Hr.
Qed.
End Accumulate.

Lemma solid_dot (s : str) : solid isspace s -> solid isspace (s ++ lit ".").
Proof.
  intros (Hs & Hl & _). split; [|split].
  - destruct s; [contradiction|discriminate].
  - apply lstrip_by_app_fixed; assumption.
  - apply rstrip_by_app_fixed; [discriminate|reflexivity].
Qed.

Lemma extract_flush (acc : str * list str) (done : list str) :
  extract_invariant acc done ->
  extract_invariant
    ([], if truthy (strip acc.1) then acc.2 ++ [strip acc.1] else acc.2) done.
Proof.
  intros (Hcat & Hall & Hcur). destruct Hcur as [E|(y & E & Hy)].
  - rewrite E in *. simpl. split; [|split; [exact Hall|left; reflexivity]].
    simpl. exact Hcat.
  - assert (Hstrip : strip acc.1 = y).
    { rewrite E. apply strip_by_solid_blank; [exact Hy|repeat constructor]. }
    assert (Ht : truthy y = true).
    { destruct Hy as (Hne & _). destruct y; [contradiction|reflexivity]. }
    rewrite Hstrip, Ht.
    split; [|split; [|left; reflexivity]].
    + cbn [fst snd]. rewrite map_app, concat_app.
      change (concat (map (fun t => t ++ lit " ") [y]))
        with ((y ++ lit " ") ++ []).
      rewrite !app_nil_r, <- E. exact Hcat.
    + cbn [snd]. apply Forall_app. split; [exact Hall|].
      repeat constructor; [apply Hy|].
      rewrite <- Hstrip. apply strip_by_idem.
Qed.

Lemma extract_step_invariant (acc : str * list str) (done : list str) (piece : str) :
  extract_invariant acc done ->
  extract_invariant (extract_step acc piece)
    (done ++ (if truthy (strip piece) then [strip piece] else [])).
Proof.
  intros Hinv. unfold extract_step.
  destruct (truthy (strip piece)) eqn:Hs; [|rewrite app_nil_r; exact Hinv].
  pose proof (solid_dot _ (solid_strip isspace piece Hs)) as Hsolid.
  assert (Hdone : concat (map (fun s => s ++ lit ". ")
                            (done ++ [strip piece]))
                  = concat (map (fun s => s ++ lit ". ") done)
                    ++ strip piece ++ lit ". ").
  { rewrite map_app, concat_app. simpl. rewrite app_nil_r. reflexivity. }
  destruct (_ <=? 280).
  - destruct Hinv as (Hcat & Hall & Hcur).
    split; [|split; [exact Hall|right]]; cbn [fst snd].
    + rewrite Hdone, <- Hcat, <- app_assoc. reflexivity.
    + destruct Hcur as [E|(y & E & Hy)].
      * exists (strip piece ++ lit "."). rewrite E. split; [|exact Hsolid].
        simpl. rewrite <- app_assoc. reflexivity.
      * exists (y ++ lit " " ++ strip piece ++ lit ".").
        split; [rewrite E, <- !app_assoc; reflexivity|].
        apply solid_app; assumption.
  - destruct (extract_flush acc done Hinv) as (Hcat & Hall & _).
    split; [|split; [exact Hall|right]]; cbn [fst snd] in *.
    + rewrite Hdone, <- Hcat, app_nil_r. reflexivity.
    + exists (strip piece ++ lit "."). split; [|exact Hsolid].
      rewrite <- app_assoc. reflexivity.
Qed.

Lemma extract_loop_invariant (pieces : list str) :
  forall acc done,
    extract_invariant acc done ->
    extract_invariant (fold_left extract_step pieces acc)
      (done ++ filter (fun s => truthy s = true) (map strip pieces)).
Proof.
  induction pieces as [|piece pieces IH]; intros acc done Hinv; simpl.
  - rewrite app_nil_r. exact Hinv.
  - specialize (IH _ _ (extract_step_invariant acc done piece Hinv)).
    rewrite <- app_assoc in IH.
    rewrite filter_cons. unfold str, char in *.
    destruct (truthy (strip piece)) eqn:Hs.
    + rewrite decide_True by reflexivity. exact IH.
    + rewrite decide_False by discriminate. exact IH.
Qed.

Lemma extract_tweets_invariant (text : str) :
  extract_invariant ([], extract_tweets text) (sentences_of text).
Proof.
  unfold extract_tweets, sentences_of.
  apply (extract_flush _ _
           (extract_loop_invariant (re_split is_sentence_end text) ([], []) []
              ltac:(repeat split; [constructor|left; reflexivity]))).
Qed.

(** [extract_tweets] loses nothing and adds nothing: its tweets, each
    followed by a space, read like the sentences of the text, each followed
    by a full stop and a space. Every tweet is a non-empty text without
    whitespace around it. *)
Theorem extract_tweets_keeps_sentences (text : str) :
  concat (map (fun t => t ++ lit " ") (extract_tweets text))
  = concat (map (fun s => s ++ lit ". ") (sentences_of text))
  /\ Forall (fun t => t <> [] /\ strip t = t) (extract_tweets text).
Proof.
  destruct (extract_tweets_invariant text) as (Hcat & Hall & _).
  cbn [fst snd] in *. rewrite app_nil_r in Hcat. split; assumption.
Qed.

Lemma extract_step_bound (acc : str * list str) (piece : str) :
  (truthy (strip piece) = true -> length (strip piece) <= 278) ->
  length acc.1 <= 280 /\ Forall (fun t => length t <= 280) acc.2 ->
  length (extract_step acc piece).1 <= 280
  /\ Forall (fun t => length t <= 280) (extract_step acc piece).2.
Proof.
  intros Hpiece [Hcur Hall]. unfold extract_step.
  destruct (truthy (strip piece)); [|split; assumption].
  specialize (Hpiece eq_refl).
  destruct (Nat.leb_spec (length acc.1 + length (strip piece) + 2) 280);
    cbn [fst snd].
  - split; [|exact Hall]. rewrite !length_app.
    change (length (lit ". ")) with 2. lia.
  - split; [rewrite length_app; change (length (lit ". ")) with 2; lia|].
    destruct (truthy (strip acc.1)); [|exact Hall].
    apply Forall_app. split; [exact Hall|].
    constructor; [|constructor].
    pose proof (strip_by_length isspace acc.1). unfold strip. lia.
Qed.

(** When no sentence of the text is longer than 278 characters, every
    tweet that [extract_tweets] returns has at most 280 characters. *)
Theorem extract_tweets_within_limit (text : str) :
  Forall (fun s => length s <= 278) (sentences_of text) ->
  Forall (fun t => length t <= 280) (extract_tweets text).
Proof.
  intros Hshort. unfold extract_tweets.
  assert (Hpieces : Forall
            (fun piece =>
               truthy (strip piece) = true -> length (strip piece) <= 278)
            (re_split is_sentence_end text)).
  { apply Forall_forall. intros piece Hin Ht.
    rewrite Forall_forall in Hshort. apply Hshort.
    unfold sentences_of. apply list_elem_of_filter. split; [exact Ht|].
    apply list_elem_of_fmap. exists piece. split; [reflexivity|exact Hin]. }
  assert (Hloop : forall pieces acc,
            Forall
              (fun piece =>
                 truthy (strip piece) = true -> length (strip piece) <= 278)
              pieces ->
            length acc.1 <= 280 /\ Forall (fun t => length t <= 280) acc.2 ->
            length (fold_left extract_step pieces acc).1 <= 280
            /\ Forall (fun t => length t <= 280)
                 (fold_left extract_step pieces acc).2).
  { induction pieces as [|piece pieces IH]; intros acc Hps Hacc; [exact Hacc|].
    simpl. apply IH; [exact (Forall_inv_tail Hps)|].
    apply extract_step_bound; [exact (Forall_inv Hps)|exact Hacc]. }
  destruct (Hloop _ ([], []) Hpieces) as [Hcur Hall].
  { split; [simpl; lia|constructor]. }
  destruct (truthy _); [|exact Hall].
  apply Forall_app. split; [exact Hall|].
  constructor; [|constructor].
  etransitivity; [apply strip_by_length|exact Hcur].
Qed.

Lemma extract_tweets_within_limit_witness :
  Forall (fun t => length t <= 280)
    (extract_tweets (lit "It works. Does it? Yes!")).
Proof.
  apply (extract_tweets_within_limit (lit "It works. Does it? Yes!")).
  vm_compute. repeat constructor.
Defined.

Lemma segment_flush (acc : str * list str) (done : list str) :
  segment_invariant acc done ->
  truthy acc.1 = truthy (strip acc.1)
  /\ segment_invariant
       ([], if truthy (strip acc.1) then acc.2 ++ [strip acc.1] else acc.2)
       done.
Proof.
  intros (Hcat & Hall & Hcur). destruct Hcur as [E|(y & E & Hy)].
  - rewrite E in *. simpl. split; [reflexivity|].
    split; [|split; [exact Hall|left; reflexivity]].
    simpl. exact Hcat.
  - assert (Hstrip : strip acc.1 = y).
    { rewrite E. apply strip_by_solid_blank; [exact Hy|repeat constructor]. }
    assert (Ht : truthy y = true).
    { destruct Hy as (Hne & _). destruct y; [contradiction|reflexivity]. }
    rewrite Hstrip, Ht. split.
    { rewrite E. destruct Hy as (Hne & _).
      destruct y; [contradiction|reflexivity]. }
    split; [|split; [|left; reflexivity]].
    + cbn [fst snd]. rewrite map_app, concat_app.
      change (concat (map (fun t => t ++ nl ++ nl) [y]))
        with ((y ++ nl ++ nl) ++ []).
      rewrite !app_nil_r, <- E. exact Hcat.
    + cbn [snd]. apply Forall_app. split; [exact Hall|].
      repeat constructor; [apply Hy|].
      rewrite <- Hstrip. apply strip_by_idem.
Qed.

Lemma segment_step_invariant min_length (acc : str * list str)
    (done : list str) (piece : str) :
  segment_invariant acc done ->
  segment_invariant (segment_step min_length acc piece)
    (done ++ (if truthy (strip piece) then [strip piece] else [])).
Proof.
  intros Hinv. unfold segment_step.
  destruct (truthy (strip piece)) eqn:Hs; [|rewrite app_nil_r; exact Hinv].
  pose proof (solid_strip isspace piece Hs) as Hsolid.
  assert (Hdone : concat (map (fun s => s ++ nl ++ nl)
                            (done ++ [strip piece]))
                  = concat (map (fun s => s ++ nl ++ nl) done)
                    ++ strip piece ++ nl ++ nl).
  { rewrite map_app, concat_app. simpl. rewrite app_nil_r. reflexivity. }
  destruct (_ <? min_length)%Z.
  - destruct Hinv as (Hcat & Hall & Hcur).
    split; [|split; [exact Hall|right]]; cbn [fst snd].
    + rewrite Hdone, <- Hcat, <- app_assoc. reflexivity.
    + destruct Hcur as [E|(y & E & Hy)].
      * exists (strip piece). rewrite E. split; [reflexivity|exact Hsolid].
      * exists (y ++ (nl ++ nl) ++ strip piece).
        split; [rewrite E, <- !app_assoc; reflexivity|].
        apply solid_app; assumption.
  - destruct (segment_flush acc done Hinv) as (Ht & Hcat & Hall & _).
    rewrite Ht.
    split; [|split; [exact Hall|right]]; cbn [fst snd] in *.
    + rewrite Hdone, <- Hcat, app_nil_r. reflexivity.
    + exists (strip piece). split; [reflexivity|exact Hsolid].
Qed.

Lemma segment_loop_invariant min_length (pieces : list str) :
  forall acc done,
    segment_invariant acc done ->
    segment_invariant (fold_left (segment_step min_length) pieces acc)
      (done ++ filter (fun s => truthy s = true) (map strip pieces)).
Proof.
  induction pieces as [|piece pieces IH]; intros acc done Hinv; simpl.
  - rewrite app_nil_r. exact Hinv.
  - specialize (IH _ _ (segment_step_invariant min_length acc done piece Hinv)).
    rewrite <- app_assoc in IH.
    rewrite filter_cons. unfold str, char in *.
    destruct (truthy (strip piece)) eqn:Hs.
    + rewrite decide_True by reflexivity. exact IH.
    + rewrite decide_False by discriminate. exact IH.
Qed.

(** Whatever the minimal length asked for, [split_into_segments] loses
    nothing and adds nothing: its segments, each followed by a blank line,
    read like the paragraphs of the text, each followed by a blank line.
    Every segment is a non-empty text without whitespace around it. *)
Theorem split_into_segments_keeps_paragraphs (text : str) (min_length : Z) :
  concat (map (fun t => t ++ nl ++ nl) (split_into_segments text min_length))
  = concat (map (fun s => s ++ nl ++ nl) (paragraphs_of text))
  /\ Forall (fun t => t <> [] /\ strip t = t)
       (split_into_segments text min_length).
Proof.
  unfold split_into_segments, paragraphs_of.
  destruct (segment_flush _ _
              (segment_loop_invariant min_length
                 (split_paragraphs false text) ([], []) []
                 ltac:(repeat split; [constructor|left; reflexivity])))
    as (_ & Hcat & Hall & _).
  cbn [fst snd] in *. rewrite app_nil_r in Hcat. split; assumption.
Qed.
